(** * Readability and SEO assessments of yoastseo: ListAssessment and
    TextCompetingLinksAssessment

    A shallow embedding of
    [packages/yoastseo/src/scoring/assessments/readability/ListAssessment.js]
    and of the [TextCompetingLinksAssessment] class, together with the
    JavaScript machinery the two classes rest on: dynamically typed values,
    plain objects, property access that throws on [null] and [undefined],
    lodash's recursive [merge], and the regular expression used to detect
    lists.

    Conventions.  JavaScript numbers are modelled by [Z] (the scores and
    counts handled here are integers).  The text of a paper is a sequence
    of UTF-16 code units ([N]); object keys and configuration strings are
    [string].  Methods are computations in a state-and-exception monad over
    the objects a call can reach: the paper, the researcher and [this]. *)

From stdpp Require Import base option numbers gmap strings list fin_maps.
From Stdlib Require Import Ascii String.

Set Default Proof Using "Type".
Local Open Scope string_scope.
Local Open Scope list_scope.

(** ** Values and plain objects *)

#[warnings="-register-all"]
Inductive value : Type :=
| VUndef
| VNull
| VBool (b : bool)
| VNum (n : Z)
| VStr (s : string)
| VObj (fields : gmap string value).

(** A plain object is its finite map of own properties. *)
Abbreviation obj := (gmap string value).

Inductive error : Type :=
| TypeError
| UnknownComputationError (name : string)
| CheckExecutionError (msg : string).

Inductive outcome (A : Type) : Type :=
| Ret (a : A)
| Throw (e : error).
Arguments Ret {A} a.
Arguments Throw {A} e.

(** [v.k] for the property names used by the assessments.  Reading a
    property of [undefined] or [null] throws; a primitive has none of these
    names on its prototype, so the read yields [undefined]. *)
Definition own (o : obj) (k : string) : value := default VUndef (o !! k).

Definition get_prop (v : value) (k : string) : outcome value :=
  match v with
  | VUndef | VNull => Throw TypeError
  | VObj fields => Ret (own fields k)
  | VBool _ | VNum _ | VStr _ => Ret VUndef
  end.

(** The chain [v.k1.k2...]. *)
Fixpoint read_path (p : list string) (v : value) : outcome value :=
  match p with
  | [] => Ret v
  | k :: p' => match get_prop v k with
               | Ret v' => read_path p' v'
               | Throw e => Throw e
               end
  end.

(** ToBoolean. *)
Definition to_boolean (v : value) : bool :=
  match v with
  | VUndef | VNull => false
  | VBool b => b
  | VNum n => negb (n =? 0)%Z
  | VStr s => negb (String.eqb s "")
  | VObj _ => true
  end.

(** lodash [isNumber] and [isUndefined]. *)
Definition isNumber (v : value) : bool :=
  match v with VNum _ => true | _ => false end.

Definition isUndefined (v : value) : bool :=
  match v with VUndef => true | _ => false end.

Definition nullish (v : value) : bool :=
  match v with VUndef | VNull => true | _ => false end.

(** A value other than [undefined] and other than an object: [null], a
    boolean, a number or a string. *)
Definition plain_value (v : value) : bool :=
  match v with VUndef | VObj _ => false | _ => true end.

(** ToNumber on the values whose conversion is an integer; [None] stands
    for NaN.  Strings and objects go through ToPrimitive and the string
    grammar, which is left to [Collaborators] below. *)
Definition to_number (v : value) : option (option Z) :=
  match v with
  | VUndef => Some None
  | VNull => Some (Some 0%Z)
  | VBool b => Some (Some (if b then 1 else 0)%Z)
  | VNum n => Some (Some n)
  | VStr _ | VObj _ => None
  end.

(** ** lodash [merge]

    [merge object source] walks the own enumerable properties of [source].
    A plain-object source value is merged recursively into the destination
    value (into a fresh object when the destination value is not an
    object); an [undefined] source value is skipped when the key already
    exists in the destination; every other value is assigned. *)

Definition as_obj (v : option value) : obj :=
  match v with Some (VObj fields) => fields | _ => ∅ end.

Fixpoint merge_into (src : value) (dst : obj) {struct src} : obj :=
  match src with
  | VObj sfields =>
      map_fold (fun k sv acc =>
        match sv with
        | VObj _ => <[k := VObj (merge_into sv (as_obj (acc !! k)))]> acc
        | VUndef => match acc !! k with
                    | Some _ => acc
                    | None => <[k := VUndef]> acc
                    end
        | _ => <[k := sv]> acc
        end) dst sfields
  | _ => dst
  end.

Definition merge (object source : obj) : obj := merge_into (VObj source) object.

(** What [merge] leaves under one key, from the destination's and the
    source's entries for that key. *)
Definition merge_entry (d s : option value) : option value :=
  match s with
  | None => d
  | Some (VObj sfields) => Some (VObj (merge (as_obj d) sfields))
  | Some VUndef => match d with Some _ => d | None => Some VUndef end
  | Some sv => Some sv
  end.

(** The value of an option given by its path of keys, when every step but
    the last goes through an object. *)
Fixpoint option_at (p : list string) (o : obj) : option value :=
  match p with
  | [] => None
  | [k] => o !! k
  | k :: p' => match o !! k with
               | Some (VObj fields) => option_at p' fields
               | _ => None
               end
  end.

(** An option is missing from a record when, walking its path through
    nested records, a key is absent or [undefined]. *)
Fixpoint missing (p : list string) (o : obj) : bool :=
  match p with
  | [] => false
  | k :: p' => match o !! k with
               | None | Some VUndef => true
               | Some (VObj fields) => missing p' fields
               | Some _ => false
               end
  end.

(** The recognised options that lie below key [k]. *)
Definition tails_under (k : string) (options : list (list string)) : list (list string) :=
  omap (fun p => match p with
                 | k' :: p' => if decide (k' = k) then Some p' else None
                 | [] => None
                 end) options.

(** An entry that is a nested record, or that is not given. *)
Definition record_or_absent (v : option value) : Prop :=
  match v with
  | None | Some VUndef | Some (VObj _) => True
  | Some _ => False
  end.

(** [adds_unknown options cfg cfg'] : the record [cfg'] is [cfg] with one
    more entry, set at the top or inside a nested record (which is created
    when [cfg] has none), under a key that no recognised option goes
    through. *)
Inductive adds_unknown : list (list string) -> obj -> obj -> Prop :=
| unknown_here options (cfg : obj) k v :
    (forall p, p ∈ options -> p <> [] /\ hd_error p <> Some k) ->
    adds_unknown options cfg (<[k := v]> cfg)
| unknown_inside options (cfg : obj) k (sub' : obj) :
    [] ∉ options ->
    record_or_absent (cfg !! k) ->
    adds_unknown (tails_under k options) (as_obj (cfg !! k)) sub' ->
    adds_unknown options cfg (<[k := VObj sub']> cfg).

(** Two records that differ by unknown options only. *)
Definition differ_by_unknown (options : list (list string)) : obj -> obj -> Prop :=
  rtc (adds_unknown options).

(** ** Strings of code units and regular expressions *)

Definition code_unit := N.
Definition jsstring := list code_unit.

Definition of_string (s : string) : jsstring :=
  map N_of_ascii (list_ascii_of_string s).

(** Regular expressions without captures, over classes of code units. *)
Inductive regex : Type :=
| Never
| Empty
| Class (p : code_unit -> bool)
| Seq (r1 r2 : regex)
| Alt (r1 r2 : regex)
| Star (r : regex).

Inductive matches : regex -> jsstring -> Prop :=
| MEmpty : matches Empty []
| MClass p c : p c = true -> matches (Class p) [c]
| MSeq r1 r2 s1 s2 :
    matches r1 s1 -> matches r2 s2 -> matches (Seq r1 r2) (s1 ++ s2)
| MAltL r1 r2 s : matches r1 s -> matches (Alt r1 r2) s
| MAltR r1 r2 s : matches r2 s -> matches (Alt r1 r2) s
| MStarNil r : matches (Star r) []
| MStarApp r s1 s2 :
    matches r s1 -> matches (Star r) s2 -> matches (Star r) (s1 ++ s2).

Fixpoint nullable (r : regex) : bool :=
  match r with
  | Never => false
  | Empty => true
  | Class _ => false
  | Seq r1 r2 => nullable r1 && nullable r2
  | Alt r1 r2 => nullable r1 || nullable r2
  | Star _ => true
  end.

Fixpoint deriv (c : code_unit) (r : regex) : regex :=
  match r with
  | Never => Never
  | Empty => Never
  | Class p => if p c then Empty else Never
  | Seq r1 r2 =>
      if nullable r1
      then Alt (Seq (deriv c r1) r2) (deriv c r2)
      else Seq (deriv c r1) r2
  | Alt r1 r2 => Alt (deriv c r1) (deriv c r2)
  | Star r1 => Seq (deriv c r1) (Star r1)
  end.

(** Whole-string matching. *)
Definition accepts (r : regex) (s : jsstring) : bool :=
  nullable (fold_left (fun r c => deriv c r) s r).

Definition any_unit : regex := Class (fun _ => true).

(** [RegExp.prototype.test] for a regular expression without flags: is
    there a match starting anywhere in the string. *)
Definition regex_test (r : regex) (s : jsstring) : bool :=
  accepts (Seq (Star any_unit) (Seq r (Star any_unit))) s.

Definition chr (a : ascii) : regex := Class (fun c => N.eqb c (N_of_ascii a)).

Definition lit (s : string) : regex :=
  fold_right (fun a r => Seq (chr a) r) Empty (list_ascii_of_string s).

(** LineTerminator: LF, CR, U+2028, U+2029. *)
Definition is_line_terminator (c : code_unit) : bool :=
  N.eqb c 10 || N.eqb c 13 || N.eqb c 8232 || N.eqb c 8233.

(** [.] without the [s] flag. *)
Definition dot : regex := Class (fun c => negb (is_line_terminator c)).

(** The class [[uo]]. *)
Definition is_u_or_o (c : code_unit) : bool := N.eqb c 117 || N.eqb c 111.
Definition u_or_o : regex := Class is_u_or_o.

(** The literal [/<[uo]l.*>[\s\S]*<\/[uo]l>/] of [ListAssessment.findList]. *)
Definition list_regex : regex :=
  Seq (chr "<") (Seq u_or_o (Seq (chr "l")
    (Seq (Star dot) (Seq (chr ">")
      (Seq (Star any_unit)
        (Seq (chr "<") (Seq (chr "/") (Seq u_or_o (Seq (chr "l") (chr ">"))))))))))%char.

(** What [list_regex] looks for: an opening [<ul] or [<ol], a run of code
    units that are not line terminators, a [>], anything at all, and a
    closing [</ul>] or [</ol>]. *)
Definition list_shape (s : jsstring) : Prop :=
  exists (pre : jsstring) (c1 : code_unit) (attrs body : jsstring)
         (c2 : code_unit) (post : jsstring),
    s = (pre ++ [60; c1; 108] ++ attrs ++ [62] ++ body
             ++ [60; 47; c2; 108; 62] ++ post)%N
    /\ is_u_or_o c1 = true /\ is_u_or_o c2 = true
    /\ Forall (fun c => is_line_terminator c = false) attrs.

(** The same shape with any characters at all allowed between the opening
    [<ul]/[<ol] and the [>]. *)
Definition list_shape_any_characters (s : jsstring) : Prop :=
  exists (pre : jsstring) (c1 : code_unit) (attrs body : jsstring)
         (c2 : code_unit) (post : jsstring),
    s = (pre ++ [60; c1; 108] ++ attrs ++ [62] ++ body
             ++ [60; 47; c2; 108; 62] ++ post)%N
    /\ is_u_or_o c1 = true /\ is_u_or_o c2 = true.

(** ** The objects an assessment works on *)

(** Modelled from the spec: the Content Unit of section 3 (values/Paper.js is
    not among the sources).  It is immutable after construction; [hasText]
    and [hasKeyword] are pure functions of the stored fields. *)
Module Paper.
Record t : Type := {
  text : jsstring;
  keyphrase : jsstring;
  synonyms : list jsstring;
  locale : string;
  attributes : gmap string string
}.

Definition getText (p : t) : jsstring := text p.

Definition hasText (p : t) : bool :=
  match text p with [] => false | _ :: _ => true end.

Definition hasKeyword (p : t) : bool :=
  match keyphrase p with [] => false | _ :: _ => true end.
End Paper.

(** Modelled from the spec: the Result of section 3
    (values/AssessmentResult.js is not among the sources).  A new result has
    no score; [setScore] stores numbers only, so that the score is a number
    or absent. *)
Module AssessmentResult.
Record t : Type := {
  identifier : string;
  score : option Z;
  text : string;
  hasMarks : bool
}.

Definition new : t :=
  {| identifier := ""; score := None; text := ""; hasMarks := false |}.

Definition setScore (v : value) (r : t) : t :=
  match v with
  | VNum n => {| identifier := identifier r; score := Some n;
                 text := text r; hasMarks := hasMarks r |}
  | _ => r
  end.

Definition setText (s : string) (r : t) : t :=
  {| identifier := identifier r; score := score r;
     text := s; hasMarks := hasMarks r |}.

Definition setHasMarks (b : bool) (r : t) : t :=
  {| identifier := identifier r; score := score r;
     text := text r; hasMarks := b |}.

(** The internal scoring scale, 0 to 9; an absent score is allowed. *)
Definition in_scale (r : t) : Prop :=
  match score r with
  | None => True
  | Some n => (0 <= n <= 9)%Z
  end.
End AssessmentResult.

(** Modelled from the spec: the Researcher of section 4.2 (its source is not
    among the sources).  It holds the Content Unit it works for, the
    registered computations and the memoized results for that unit.
    A lookup of a name that was never registered fails with
    [UnknownComputationError]; the first successful lookup stores the
    result, later ones return the stored value. *)
Module Researcher.
Record t : Type := {
  paper : Paper.t;
  registry : gmap string (Paper.t -> outcome value);
  cache : gmap string value
}.

Definition register (name : string) (f : Paper.t -> outcome value) (r : t) : t :=
  {| paper := paper r;
     registry := <[name := f]> (registry r);
     cache := delete name (cache r) |}.

Definition setPaper (p : Paper.t) (r : t) : t :=
  {| paper := p; registry := registry r; cache := ∅ |}.

Definition getResearch (name : string) (r : t) : outcome value * t :=
  match registry r !! name with
  | None => (Throw (UnknownComputationError name), r)
  | Some f =>
      match cache r !! name with
      | Some v => (Ret v, r)
      | None =>
          match f (paper r) with
          | Ret v => (Ret v, {| paper := paper r; registry := registry r;
                                cache := <[name := v]> (cache r) |})
          | Throw e => (Throw e, r)
          end
      end
  end.
End Researcher.

(** ** Method calls as stateful, fallible computations *)

(** The objects reachable from a call [check.method( paper, researcher )]. *)
Record World (I : Type) : Type := {
  paper : Paper.t;
  researcher : Researcher.t;
  this : I
}.
Arguments paper {I} _.
Arguments researcher {I} _.
Arguments this {I} _.
Arguments Build_World {I} _ _ _.

(** A thrown exception keeps the mutations made before it. *)
Definition M (I A : Type) : Type := World I -> outcome A * World I.

Definition ret {I A} (a : A) : M I A := fun w => (Ret a, w).

Definition bind {I A B} (m : M I A) (k : A -> M I B) : M I B :=
  fun w =>
    match m w with
    | (Ret a, w') => k a w'
    | (Throw e, w') => (Throw e, w')
    end.

Notation "'let!' x ':=' m 'in' k" := (bind m (fun x => k))
  (at level 10, x name, m at level 100, k at level 200).
Notation "'do!' m 'in' k" := (bind m (fun _ => k))
  (at level 10, m at level 100, k at level 200).

Definition lift {I A} (o : outcome A) : M I A := fun w => (o, w).

Definition get_paper {I} : M I Paper.t := fun w => (Ret (paper w), w).

Definition get_this {I} : M I I := fun w => (Ret (this w), w).

Definition put_this {I} (i : I) : M I unit :=
  fun w => (Ret tt, Build_World (paper w) (researcher w) i).

(** [researcher.getResearch( name )]. *)
Definition getResearch {I} (name : string) : M I value :=
  fun w =>
    let '(o, r) := Researcher.getResearch name (researcher w) in
    (o, Build_World (paper w) r (this w)).


(** ** Collaborators whose source is outside the two classes *)

(** [removeHtmlBlocks] (languageProcessing/helpers/html/htmlParser),
    [createAnchorOpeningTag] (helpers), [__] and [sprintf]
    (@wordpress/i18n), and the relational comparison of operands that
    ToNumber does not turn into an integer or NaN directly. *)
Class Collaborators : Type := {
  removeHtmlBlocks : jsstring -> jsstring;
  createAnchorOpeningTag : string -> string;
  translate : string -> string -> string;
  sprintf : string -> list value -> string;
  coercing_gt : value -> value -> bool
}.

(** Modelled from the spec: the inherited [hasEnoughContentForAssessment]
    of the base class [Assessment] (scoring/assessments/assessment.js is not
    among the sources; the source only shows the call
    [this.hasEnoughContentForAssessment( paper )]).  By section 4.3
    applicability is a predicate of the Content Unit, such as "has enough
    words", and the documentation of [ListAssessment.isApplicable] reads it
    as "the paper has text": the method takes the text of the paper and
    decides whether it is enough.  How much is enough is [enough_content],
    which the spec leaves open. *)
Class Assessment : Type := {
  enough_content : jsstring -> bool
}.

Definition hasEnoughContentForAssessment `{Assessment} (I : Type) : M I bool :=
  let! paper := get_paper in
  ret (enough_content (Paper.getText paper)).

(** [a > b]. *)
Definition js_gt `{Collaborators} (a b : value) : bool :=
  match to_number a, to_number b with
  | Some (Some x), Some (Some y) => (y <? x)%Z
  | Some None, _ | _, Some None => false
  | _, _ => coercing_gt a b
  end.

(** Modelled from the spec: one step of the Orchestrator's [run] (section
    4.4, scoring/assessor.js is not among the sources): a Check Unit is
    executed only when it is applicable; an inapplicable one contributes no
    Result. *)
Definition run_check {I} (isApplicable : M I bool)
    (getResult : M I AssessmentResult.t)
    (w : World I) : option (outcome AssessmentResult.t) * World I :=
  match isApplicable w with
  | (Ret true, w1) => let '(o, w2) := getResult w1 in (Some o, w2)
  | (Ret false, w1) => (None, w1)
  | (Throw e, w1) => (Some (Throw e), w1)
  end.

(** ** ListAssessment *)

Module ListAssessment.

Record t : Type := {
  _config : obj;
  identifier : string;
  textContainsList : value
}.

(** The object returned by [calculateResult]. *)
Record calculated : Type := {
  score : value;
  resultText : string
}.

Section Methods.
Context `{Collaborators} `{Assessment}.

Definition defaultConfig : obj :=
  list_to_map [
    ("urlTitle", VStr (createAnchorOpeningTag "https://yoa.st/shopify38"));
    ("urlCallToAction", VStr (createAnchorOpeningTag "https://yoa.st/shopify39"));
    ("scores", VObj (list_to_map [("bad", VNum 3); ("good", VNum 9)]))
  ].

(** The options that [getResult] and [calculateResult] read. *)
Definition options : list (list string) :=
  [["urlTitle"]; ["urlCallToAction"]; ["scores"; "good"]; ["scores"; "bad"]].

(** Whether the text handed to the regular expression holds a list. *)
Definition found (p : Paper.t) : bool :=
  regex_test list_regex (removeHtmlBlocks (Paper.getText p)).

(** [constructor( config = {} )]; [None] is an omitted argument. *)
Definition constructor (config : option obj) : t :=
  {| _config := merge defaultConfig (default ∅ config);
     identifier := "listsPresence";
     textContainsList := VUndef |}.

Definition findList : M t bool :=
  let! paper := get_paper in
  let text := Paper.getText paper in
  let text := removeHtmlBlocks text in
  ret (regex_test list_regex text).

Definition calculateResult : M t calculated :=
  let! self := get_this in
  if to_boolean (textContainsList self) then
    let! scores := lift (get_prop (VObj (_config self)) "scores") in
    let! good := lift (get_prop scores "good") in
    ret {| score := good;
           resultText :=
             sprintf
               (translate
                  "%1$sLists%2$s: There is at least one list on this page. Great!"
                  "yoast-woo-seo")
               [own (_config self) "urlTitle"; VStr "</a>"] |}
  else
    let! scores := lift (get_prop (VObj (_config self)) "scores") in
    let! bad := lift (get_prop scores "bad") in
    ret {| score := bad;
           resultText :=
             sprintf
               (translate
                  "%1$sLists%3$s: No lists appear on this page. %2$sAdd at least one ordered or unordered list%3$s!"
                  "yoast-woo-seo")
               [own (_config self) "urlTitle";
                own (_config self) "urlCallToAction"; VStr "</a>"] |}.

Definition getResult : M t AssessmentResult.t :=
  let! found := findList in
  let! self := get_this in
  do! put_this {| _config := _config self;
                  identifier := identifier self;
                  textContainsList := VBool found |} in
  let! calculatedScore := calculateResult in
  let assessmentResult := AssessmentResult.new in
  let assessmentResult :=
    AssessmentResult.setScore (score calculatedScore) assessmentResult in
  let assessmentResult :=
    AssessmentResult.setText (resultText calculatedScore) assessmentResult in
  ret assessmentResult.

Definition isApplicable : M t bool :=
  hasEnoughContentForAssessment t.

End Methods.
End ListAssessment.

(** ** TextCompetingLinksAssessment *)

Module TextCompetingLinksAssessment.

Record t : Type := {
  _config : obj;
  identifier : string;
  totalAnchorsWithKeyphrase : value
}.

Record calculated : Type := {
  score : value;
  resultText : string
}.

Section Methods.
Context `{Collaborators}.

Definition defaultConfig : obj :=
  list_to_map [
    ("parameters", VObj (list_to_map [("recommendedMaximum", VNum 0)]));
    ("scores", VObj (list_to_map [("bad", VNum 2)]));
    ("urlTitle", VStr (createAnchorOpeningTag "https://yoa.st/34l"));
    ("urlCallToAction", VStr (createAnchorOpeningTag "https://yoa.st/34m"))
  ].

(** The options that [getResult] and [calculateResult] read. *)
Definition options : list (list string) :=
  [["parameters"; "recommendedMaximum"]; ["scores"; "bad"];
   ["urlTitle"]; ["urlCallToAction"]].

Definition constructor (config : option obj) : t :=
  {| _config := merge defaultConfig (default ∅ config);
     identifier := "textCompetingLinks";
     totalAnchorsWithKeyphrase := VUndef |}.

(** Returns [None] for the implicit [undefined] of the fall-through. *)
Definition calculateResult : M t (option calculated) :=
  let! self := get_this in
  let! parameters := lift (get_prop (VObj (_config self)) "parameters") in
  let! recommendedMaximum := lift (get_prop parameters "recommendedMaximum") in
  if js_gt (totalAnchorsWithKeyphrase self) recommendedMaximum then
    let! scores := lift (get_prop (VObj (_config self)) "scores") in
    let! bad := lift (get_prop scores "bad") in
    ret (Some {| score := bad;
                 resultText :=
                   sprintf
                     (translate
                        "%1$sLink keyphrase%3$s: You're linking to another page with the words you want this page to rank for. %2$sDon't do that%3$s!"
                        "wordpress-seo")
                     [own (_config self) "urlTitle";
                      own (_config self) "urlCallToAction"; VStr "</a>"] |})
  else ret None.

Definition getResult : M t AssessmentResult.t :=
  let assessmentResult := AssessmentResult.new in
  let! research := getResearch "getAnchorsWithKeyphrase" in
  let! count := lift (get_prop research "anchorsWithKeyphraseCount") in
  let! self := get_this in
  do! put_this {| _config := _config self;
                  identifier := identifier self;
                  totalAnchorsWithKeyphrase := count |} in
  let! calculatedResult := calculateResult in
  match calculatedResult with
  | None => ret assessmentResult
  | Some c =>
      let assessmentResult :=
        AssessmentResult.setScore (score c) assessmentResult in
      let assessmentResult :=
        AssessmentResult.setText (resultText c) assessmentResult in
      let assessmentResult :=
        AssessmentResult.setHasMarks false assessmentResult in
      ret assessmentResult
  end.

Definition isApplicable : M t bool :=
  let! paper := get_paper in
  ret (Paper.hasText paper && Paper.hasKeyword paper).

End Methods.
End TextCompetingLinksAssessment.

(** The Content Unit of the list scenario, whatever its other fields. *)
Definition list_scenario_paper (synonyms : list jsstring) (locale : string)
    (attributes : gmap string string) : Paper.t :=
  {| Paper.text := of_string "<ul><li>a</li></ul> dogs";
     Paper.keyphrase := of_string "dogs";
     Paper.synonyms := synonyms;
     Paper.locale := locale;
     Paper.attributes := attributes |}.

(** A list whose opening tag holds a line feed inside an attribute value:
    [<ul title='a], a line feed, [b'><li>x</li></ul>]. *)
Definition multiline_list_text : jsstring :=
  (of_string "<ul title='a" ++ [10] ++ of_string "b'><li>x</li></ul>")%N.

(** ** A concrete environment

    An environment in which the development can be run: no HTML blocks to
    remove, no translation loaded, a formatter that substitutes the
    positional [%n$s] directives, and a base class that asks for some
    text. *)
Module Sample.

Definition show (v : value) : string :=
  match v with
  | VStr s => s
  | VUndef => "undefined"
  | VNull => "null"
  | VBool true => "true"
  | VBool false => "false"
  | VNum _ => "number"
  | VObj _ => "[object Object]"
  end.

Definition digit_index (a : ascii) : option nat :=
  let n := nat_of_ascii a in
  if (49 <=? n)%nat && (n <=? 57)%nat then Some (n - 49)%nat else None.

(** Replaces every [%d$s] (one digit) by the argument it names. *)
Fixpoint format (fmt : string) (args : list value) : string :=
  match fmt with
  | String "%" (String d (String "$" (String "s" rest))) =>
      match digit_index d with
      | Some i => show (default VUndef (args !! i)) ++ format rest args
      | None => String "%" (String d (String "$" (String "s" (format rest args))))
      end
  | String a rest => String a (format rest args)
  | EmptyString => EmptyString
  end%string.

Definition collaborators : Collaborators :=
  {| removeHtmlBlocks := fun text => text;
     createAnchorOpeningTag :=
       fun url => ("<a href='" ++ url ++ "' target='_blank'>")%string;
     translate := fun text _ => text;
     sprintf := format;
     coercing_gt := fun _ _ => false |}.


Definition paper_of (text keyphrase : string) : Paper.t :=
  {| Paper.text := of_string text;
     Paper.keyphrase := of_string keyphrase;
     Paper.synonyms := [];
     Paper.locale := "en_US";
     Paper.attributes := ∅ |}.

(** A researcher for [p] whose research reports [n] anchors. *)
Definition researcher_counting (p : Paper.t) (n : Z) : Researcher.t :=
  {| Researcher.paper := p;
     Researcher.registry :=
       {[ "getAnchorsWithKeyphrase" :=
            fun _ => Ret (VObj {[ "anchorsWithKeyphraseCount" := VNum n ]}) ]};
     Researcher.cache := ∅ |}.

Definition world_of {I} (p : Paper.t) (r : Paper.t -> Researcher.t) (i : I) : World I :=
  Build_World p (r p) i.

(** The scenario of the list check, and a text without a list. *)
Definition list_paper : Paper.t := paper_of "<ul><li>a</li></ul> dogs" "dogs".
Definition plain_paper : Paper.t := paper_of "dogs bark" "dogs".
Definition empty_paper : Paper.t := paper_of "" "cats".

(** A list whose opening tag holds a line feed inside an attribute. *)
Definition multiline_list_paper : Paper.t :=
  {| Paper.text :=
       (of_string "<ul title='a" ++ [10] ++ of_string "b'><li>x</li></ul>")%N;
     Paper.keyphrase := of_string "dogs";
     Paper.synonyms := [];
     Paper.locale := "en_US";
     Paper.attributes := ∅ |}.

(** A configuration record that sets one option only, and the same
    record with two options that neither check knows, one of them inside
    the [scores] group. *)
Definition partial_config : obj :=
  {[ "scores" := VObj {[ "bad" := VNum 1 ]} ]}.

Definition extended_config : obj :=
  <[ "scores" := VObj (<[ "medium" := VNum 6 ]> {[ "bad" := VNum 1 ]}) ]>
    (<[ "colour" := VStr "red" ]> partial_config).

(** A record that sets every number the two checks read, one that only
    holds an [undefined] entry, and one that sets the [scores] group to
    [null]. *)
Definition custom_config : obj :=
  {[ "scores" := VObj (<[ "good" := VNum 7 ]> {[ "bad" := VNum 1 ]});
     "parameters" := VObj {[ "recommendedMaximum" := VNum 2 ]} ]}.

Definition undefined_config : obj := {[ "scores" := VUndef ]}.

Definition null_scores_config : obj := {[ "scores" := VNull ]}.

(** A researcher for [p] whose research returns [v]. *)
Definition researcher_returning (v : value) (p : Paper.t) : Researcher.t :=
  {| Researcher.paper := p;
     Researcher.registry := {[ "getAnchorsWithKeyphrase" := fun _ => Ret v ]};
     Researcher.cache := ∅ |}.

(** A researcher for [p] whose research fails. *)
Definition researcher_failing (p : Paper.t) : Researcher.t :=
  {| Researcher.paper := p;
     Researcher.registry :=
       {[ "getAnchorsWithKeyphrase" :=
            fun _ => Throw (CheckExecutionError "no anchors") ]};
     Researcher.cache := ∅ |}.

(** A researcher in which nothing is registered. *)
Definition researcher_empty (p : Paper.t) : Researcher.t :=
  {| Researcher.paper := p; Researcher.registry := ∅; Researcher.cache := ∅ |}.

End Sample.

(** * Properties *)

(** ** lodash [merge] *)

Lemma lookup_merge (object source : obj) (k : string) :
  merge object source !! k = merge_entry (object !! k) (source !! k).
Proof.
  unfold merge. cbn [merge_into]. revert k.
  apply (map_fold_weak_ind
           (fun (r m : obj) => forall k, r !! k = merge_entry (object !! k) (m !! k))).
  - intros k. rewrite lookup_empty. reflexivity.
  - intros i x m r Hi IH k.
    destruct (decide (i = k)) as [->|Hne].
    + rewrite lookup_insert_eq. pose proof (IH k) as Hk.
      rewrite Hi in Hk. cbn in Hk.
      destruct x; cbn; rewrite ?lookup_insert_eq, ?Hk; try reflexivity.
      destruct (object !! k) eqn:E; rewrite ?lookup_insert_eq, ?Hk; congruence.
    + rewrite lookup_insert_ne by done. rewrite <- IH.
      destruct x; rewrite ?lookup_insert_ne by done; try reflexivity.
      destruct (r !! i); rewrite ?lookup_insert_ne by done; reflexivity.
Qed.

Lemma own_merge_object (object source : obj) (k : string) (d s : obj) :
  object !! k = Some (VObj d) ->
  source !! k = Some (VObj s) ->
  own (merge object source) k = VObj (merge d s).
Proof.
  intros Hd Hs. unfold own. rewrite lookup_merge, Hd, Hs. reflexivity.
Qed.

Lemma merge_empty_source (object : obj) : merge object ∅ = object.
Proof. apply map_eq. intros k. rewrite lookup_merge, lookup_empty. reflexivity. Qed.

(** An option that the source record misses keeps the value the destination
    gives it. *)
Lemma option_at_merge_missing (p : list string) :
  forall (object source : obj) (v : value),
    option_at p object = Some v ->
    missing p source = true ->
    option_at p (merge object source) = Some v.
Proof.
  induction p as [|k p IH]; intros object source v Hv Hm; [discriminate|].
  destruct p as [|k' p'].
  - cbn in *. rewrite lookup_merge, Hv.
    destruct (source !! k) as [[]|]; try discriminate; reflexivity.
  - cbn [option_at missing] in *.
    destruct (object !! k) as [[| | | | |d]|] eqn:Ed; try discriminate.
    rewrite lookup_merge, Ed.
    destruct (source !! k) as [[| | | | |s]|] eqn:Es; try discriminate; cbn.
    + assumption.
    + apply IH; assumption.
    + assumption.
Qed.

(** Entries of the source under other keys do not matter. *)
Lemma lookup_merge_insert_ne (object source : obj) (k k' : string) (v : value) :
  k <> k' ->
  merge object (<[k := v]> source) !! k' = merge object source !! k'.
Proof.
  intros Hne. rewrite !lookup_merge, lookup_insert_ne by done. reflexivity.
Qed.

Lemma own_merge_insert_ne (object source : obj) (k k' : string) (v : value) :
  k <> k' ->
  own (merge object (<[k := v]> source)) k' = own (merge object source) k'.
Proof. intros Hne. unfold own. rewrite lookup_merge_insert_ne by done. reflexivity. Qed.

(** ** Regular expressions: the matcher decides [matches] *)

Lemma matches_seq_inv (r1 r2 : regex) (s : jsstring) :
  matches (Seq r1 r2) s <->
  exists s1 s2, s = s1 ++ s2 /\ matches r1 s1 /\ matches r2 s2.
Proof.
  split.
  - intros Hm. inversion Hm; subst. eauto.
  - intros (s1 & s2 & -> & H1 & H2). constructor; assumption.
Qed.

Lemma matches_class_inv (p : code_unit -> bool) (s : jsstring) :
  matches (Class p) s <-> exists c, s = [c] /\ p c = true.
Proof.
  split.
  - intros Hm. inversion Hm; subst. eauto.
  - intros (c & -> & Hp). constructor. assumption.
Qed.

Lemma nullable_matches (r : regex) : nullable r = true <-> matches r [].
Proof.
  induction r as [| |p|r1 IH1 r2 IH2|r1 IH1 r2 IH2|r IH]; cbn.
  - split; [discriminate|]. intros Hm. inversion Hm.
  - split; [intros _; constructor|reflexivity].
  - split; [discriminate|]. intros Hm. inversion Hm.
  - rewrite andb_true_iff, IH1, IH2, matches_seq_inv. split.
    + intros [H1 H2]. exists [], []. auto.
    + intros (s1 & s2 & Heq & H1 & H2). symmetry in Heq.
      apply app_eq_nil in Heq as [-> ->]. auto.
  - rewrite orb_true_iff, IH1, IH2. split.
    + intros [H1|H2]; [apply MAltL|apply MAltR]; assumption.
    + intros Hm. inversion Hm; subst; auto.
  - split; [intros _; constructor|reflexivity].
Qed.

Lemma matches_star_cons (r : regex) (c : code_unit) (s : jsstring) :
  matches (Star r) (c :: s) ->
  exists s1 s2, s = s1 ++ s2 /\ matches r (c :: s1) /\ matches (Star r) s2.
Proof.
  intros Hm. remember (Star r) as r' eqn:Er. remember (c :: s) as cs eqn:Ecs.
  induction Hm as [| | | | | |r0 s1 s2 H1 _ H2 IH2]; try discriminate.
  injection Er as ->.
  destruct s1 as [|c1 s1].
  - cbn in Ecs. apply IH2; [reflexivity|assumption].
  - cbn in Ecs. injection Ecs as -> <-. exists s1, s2. auto.
Qed.

Lemma deriv_matches (r : regex) :
  forall (c : code_unit) (s : jsstring),
    matches (deriv c r) s <-> matches r (c :: s).
Proof.
  induction r as [| |p|r1 IH1 r2 IH2|r1 IH1 r2 IH2|r IH]; intros c s; cbn.
  - split; intros Hm; inversion Hm.
  - split; intros Hm; inversion Hm.
  - destruct (p c) eqn:Ep; split; intros Hm.
    + inversion Hm; subst. constructor. assumption.
    + inversion Hm; subst. constructor.
    + inversion Hm.
    + inversion Hm; subst. congruence.
  - assert (Hseq : matches (Seq (deriv c r1) r2) s ->
                   matches (Seq r1 r2) (c :: s)).
    { intros Hm. apply matches_seq_inv in Hm as (s1 & s2 & -> & H1 & H2).
      change (c :: s1 ++ s2) with ((c :: s1) ++ s2).
      constructor; [apply IH1|]; assumption. }
    assert (Hinv : matches (Seq r1 r2) (c :: s) ->
                   matches (Seq (deriv c r1) r2) s \/
                   (matches r1 [] /\ matches r2 (c :: s))).
    { intros Hm. apply matches_seq_inv in Hm as (s1 & s2 & Heq & H1 & H2).
      destruct s1 as [|c1 s1]; cbn in Heq.
      - subst s2. right. auto.
      - injection Heq as <- ->. left. constructor; [apply IH1|]; assumption. }
    destruct (nullable r1) eqn:En; split; intros Hm.
    + inversion Hm; subst; [auto|].
      change (c :: s) with ([] ++ c :: s).
      constructor; [apply nullable_matches; assumption|apply IH2; assumption].
    + destruct (Hinv Hm) as [Hl|[_ Hr]].
      * apply MAltL; assumption.
      * apply MAltR, IH2; assumption.
    + auto.
    + destruct (Hinv Hm) as [Hl|[Hn _]]; [assumption|].
      apply nullable_matches in Hn. congruence.
  - split; intros Hm; inversion Hm; subst.
    + apply MAltL, IH1; assumption.
    + apply MAltR, IH2; assumption.
    + apply MAltL, IH1; assumption.
    + apply MAltR, IH2; assumption.
  - split; intros Hm.
    + apply matches_seq_inv in Hm as (s1 & s2 & -> & H1 & H2).
      change (c :: s1 ++ s2) with ((c :: s1) ++ s2).
      constructor; [apply IH|]; assumption.
    + apply matches_star_cons in Hm as (s1 & s2 & -> & H1 & H2).
      constructor; [apply IH|]; assumption.
Qed.

Lemma accepts_matches (s : jsstring) :
  forall r : regex, accepts r s = true <-> matches r s.
Proof.
  induction s as [|c s IH]; intros r.
  - apply nullable_matches.
  - unfold accepts in *. cbn. rewrite IH. apply deriv_matches.
Qed.

Lemma matches_chr_inv (a : ascii) (s : jsstring) :
  matches (chr a) s <-> s = [N_of_ascii a].
Proof.
  unfold chr. rewrite matches_class_inv. split.
  - intros (c & -> & Hc). apply N.eqb_eq in Hc. subst c. reflexivity.
  - intros ->. eexists. split; [reflexivity|apply N.eqb_refl].
Qed.

Lemma matches_star_class (p : code_unit -> bool) (s : jsstring) :
  matches (Star (Class p)) s <-> Forall (fun c => p c = true) s.
Proof.
  split.
  - intros Hm. remember (Star (Class p)) as r eqn:Er.
    induction Hm as [| | | | | |r0 s1 s2 H1 _ H2 IH2]; try discriminate.
    + constructor.
    + injection Er as ->. inversion H1; subst.
      constructor; [assumption|apply IH2; reflexivity].
  - induction 1 as [|c s Hc _ IH].
    + constructor.
    + change (c :: s) with ([c] ++ s). constructor; [constructor|]; assumption.
Qed.

Lemma matches_any_star (s : jsstring) : matches (Star any_unit) s.
Proof. apply matches_star_class. apply Forall_forall. reflexivity. Qed.

(** [test] succeeds exactly when some substring matches. *)
Lemma regex_test_spec (r : regex) (s : jsstring) :
  regex_test r s = true <->
  exists pre mid post, s = pre ++ mid ++ post /\ matches r mid.
Proof.
  unfold regex_test. rewrite accepts_matches. split.
  - intros Hm. apply matches_seq_inv in Hm as (pre & rest & -> & _ & Hm).
    apply matches_seq_inv in Hm as (mid & post & -> & Hm & _).
    eauto.
  - intros (pre & mid & post & -> & Hm).
    constructor; [apply matches_any_star|].
    constructor; [assumption|apply matches_any_star].
Qed.

(** ** The list pattern *)

Lemma list_regex_matches (mid : jsstring) :
  matches list_regex mid <->
  exists (c1 : code_unit) (attrs body : jsstring) (c2 : code_unit),
    mid = ([60; c1; 108] ++ attrs ++ [62] ++ body ++ [60; 47; c2; 108; 62])%N
    /\ is_u_or_o c1 = true /\ is_u_or_o c2 = true
    /\ Forall (fun c => is_line_terminator c = false) attrs.
Proof.
  unfold list_regex, u_or_o, dot. split.
  - intros Hm.
    repeat (apply matches_seq_inv in Hm as (? & ? & -> & ? & Hm)).
    repeat match goal with
           | Hc : matches (chr _) _ |- _ => apply matches_chr_inv in Hc; subst
           | Hc : matches (Class is_u_or_o) _ |- _ =>
               apply matches_class_inv in Hc as (? & -> & ?)
           end.
    match goal with
    | Hs : matches (Star (Class _)) ?a, Hb : matches (Star any_unit) ?b,
      H1 : is_u_or_o ?c1 = true, H2 : is_u_or_o ?c2 = true |- _ =>
        apply matches_star_class in Hs; exists c1, a, b, c2
    end.
    repeat split; try assumption.
    eapply Forall_impl; [eassumption|].
    intros c Hc. cbn in Hc. apply negb_true_iff in Hc. exact Hc.
  - intros (c1 & attrs & body & c2 & -> & H1 & H2 & Hattrs).
    change ([60; c1; 108] ++ attrs ++ [62] ++ body ++ [60; 47; c2; 108; 62])%N
      with ([60] ++ [c1] ++ [108] ++ attrs ++ [62] ++ body
              ++ [60] ++ [47] ++ [c2] ++ [108] ++ [62])%N.
    repeat (apply MSeq);
      try (apply matches_chr_inv; reflexivity);
      try (constructor; assumption).
    + apply matches_star_class. eapply Forall_impl; [eassumption|].
      intros c Hc. cbn. apply negb_true_iff. exact Hc.
    + apply matches_any_star.
Qed.

Lemma regex_test_list_shape (s : jsstring) :
  regex_test list_regex s = true <-> list_shape s.
Proof.
  rewrite regex_test_spec. unfold list_shape. split.
  - intros (pre & mid & post & -> & Hm).
    apply list_regex_matches in Hm as (c1 & attrs & body & c2 & -> & H1 & H2 & Ha).
    exists pre, c1, attrs, body, c2, post. repeat split; try assumption.
    cbn. rewrite <- !app_assoc. cbn. rewrite <- !app_assoc. reflexivity.
  - intros (pre & c1 & attrs & body & c2 & post & -> & H1 & H2 & Ha).
    exists pre, ([60; c1; 108] ++ attrs ++ [62] ++ body ++ [60; 47; c2; 108; 62])%N, post.
    split.
    + cbn. rewrite <- !app_assoc. cbn. rewrite <- !app_assoc. reflexivity.
    + apply list_regex_matches. exists c1, attrs, body, c2. auto.
Qed.

(** ** Reading options from a merged configuration *)

Lemma outcome_eta {A} (o : outcome A) :
  match o with Ret a => Ret a | Throw e => Throw e end = o.
Proof. destruct o; reflexivity. Qed.

Lemma get_prop_returns (v : value) (k : string) :
  nullish v = false -> exists v', get_prop v k = Ret v'.
Proof. destruct v; try discriminate; intros _; eexists; reflexivity. Qed.

Lemma get_prop_throws (v : value) (k : string) :
  nullish v = true -> get_prop v k = Throw TypeError.
Proof. destruct v; try discriminate; reflexivity. Qed.

Lemma read_path_one (k : string) (v : value) : read_path [k] v = get_prop v k.
Proof. cbn. apply outcome_eta. Qed.

Lemma read_path_two (k1 k2 : string) (o : obj) :
  read_path [k1; k2] (VObj o) = get_prop (own o k1) k2.
Proof. cbn [read_path get_prop]. apply outcome_eta. Qed.

Lemma read_path_own (k : string) (o : obj) : read_path [k] (VObj o) = Ret (own o k).
Proof. reflexivity. Qed.

Lemma adds_unknown_no_empty_option (options : list (list string)) (cfg cfg' : obj) :
  adds_unknown options cfg cfg' -> [] ∉ options.
Proof.
  destruct 1 as [options cfg k v Hk|]; [|assumption].
  intros Hin. destruct (Hk [] Hin) as [Hne _]. contradiction.
Qed.

Lemma elem_of_tails_under (k : string) (options : list (list string)) (p : list string) :
  p ∈ tails_under k options <-> k :: p ∈ options.
Proof.
  unfold tails_under. rewrite list_elem_of_omap. split.
  - intros ([|k' q] & Hq & Hsome); [discriminate|].
    destruct (decide (k' = k)) as [->|]; [|discriminate].
    injection Hsome as ->. exact Hq.
  - intros Hp. exists (k :: p). split; [exact Hp|].
    rewrite decide_True by done. reflexivity.
Qed.

(** What [merge] leaves under the key of a group of options. *)
Lemma own_merge_group (dst cfg : obj) (k : string) (d : obj) :
  dst !! k = Some (VObj d) ->
  record_or_absent (cfg !! k) ->
  own (merge dst cfg) k = VObj (merge d (as_obj (cfg !! k))).
Proof.
  intros Hd Hrec. unfold own. rewrite lookup_merge, Hd.
  destruct (cfg !! k) as [[]|]; cbn in *; try contradiction;
    rewrite ?merge_empty_source; reflexivity.
Qed.

(** Adding an unknown option to the source does not change what any
    recognised option reads in the merged record, when the destination
    defines every recognised option. *)
Lemma read_path_adds_unknown (options : list (list string)) (cfg cfg' : obj) :
  adds_unknown options cfg cfg' ->
  forall (dst : obj) (p : list string),
    (forall q, q ∈ options -> is_Some (option_at q dst)) ->
    p ∈ options ->
    read_path p (VObj (merge dst cfg')) = read_path p (VObj (merge dst cfg)).
Proof.
  induction 1 as [options cfg k v Hk|options cfg k sub' Hnil Hrec Hadd IH];
    intros dst p Hdef Hp.
  - destruct (Hk p Hp) as [Hne Hhd].
    destruct p as [|k0 p']; [done|]. cbn in Hhd.
    assert (k <> k0) by congruence.
    cbn [read_path get_prop]. rewrite own_merge_insert_ne by done. reflexivity.
  - destruct p as [|k0 p']; [contradiction|].
    cbn [read_path get_prop]. destruct (decide (k = k0)) as [->|Hne].
    + assert (Htail : p' ∈ tails_under k0 options)
        by (apply elem_of_tails_under; exact Hp).
      assert (Hgroup : forall q, q ∈ tails_under k0 options ->
                exists d, dst !! k0 = Some (VObj d) /\ is_Some (option_at q d)).
      { intros q Hq.
        assert (q <> []) as Hq0.
        { intros ->. exact (adds_unknown_no_empty_option _ _ _ Hadd Hq). }
        apply elem_of_tails_under in Hq. specialize (Hdef _ Hq).
        destruct q as [|k1 q]; [contradiction|]. cbn [option_at] in Hdef.
        destruct (dst !! k0) as [[| | | | |d]|]; try (destruct Hdef; discriminate).
        exists d. split; [reflexivity|]. exact Hdef. }
      destruct (Hgroup p' Htail) as (d & Hd & _).
      rewrite (own_merge_group dst cfg k0 d Hd Hrec).
      unfold own. rewrite lookup_merge, lookup_insert_eq, Hd. cbn [merge_entry default as_obj].
      apply IH; [|exact Htail].
      intros q Hq. destruct (Hgroup q Hq) as (d' & Hd' & Hsome).
      rewrite Hd in Hd'. injection Hd' as <-. exact Hsome.
    + rewrite own_merge_insert_ne by done. reflexivity.
Qed.

Lemma read_path_differ_by_unknown (options : list (list string)) (cfg cfg' : obj) :
  differ_by_unknown options cfg cfg' ->
  forall (dst : obj) (p : list string),
    (forall q, q ∈ options -> is_Some (option_at q dst)) ->
    p ∈ options ->
    read_path p (VObj (merge dst cfg')) = read_path p (VObj (merge dst cfg)).
Proof.
  induction 1 as [cfg|cfg mid cfg' Hstep _ IH]; intros dst p Hdef Hp.
  - reflexivity.
  - rewrite IH by assumption. eapply read_path_adds_unknown; eassumption.
Qed.

(** ** ListAssessment *)

Section ListAssessmentFacts.
Context `{Collaborators}.
Import ListAssessment.

Local Arguments own : simpl never.

Lemma findList_run (w : World t) :
  findList w = (Ret (found (paper w)), w).
Proof. reflexivity. Qed.

(** [getResult] records what [findList] found and changes nothing else. *)
Lemma getResult_world (w : World t) :
  snd (getResult w) =
  Build_World (paper w) (researcher w)
    {| _config := _config (this w);
       identifier := identifier (this w);
       textContainsList := VBool (found (paper w)) |}.
Proof.
  unfold getResult, calculateResult, findList, bind, ret, lift, get_paper,
    get_this, put_this. cbn.
  fold (found (paper w)).
  destruct (found (paper w)); cbn;
    destruct (get_prop (own (_config (this w)) "scores") _); reflexivity.
Qed.

(** The result is a function of what [findList] found and of the four
    options read from [_config]. *)
Lemma getResult_reads (w1 w2 : World t) :
  found (paper w1) = found (paper w2) ->
  (forall p, p ∈ options ->
     read_path p (VObj (_config (this w1))) = read_path p (VObj (_config (this w2)))) ->
  fst (getResult w1) = fst (getResult w2).
Proof.
  intros Hfound Hreads.
  assert (Htitle := Hreads ["urlTitle"]).
  assert (Hcall := Hreads ["urlCallToAction"]).
  assert (Hgood := Hreads ["scores"; "good"]).
  assert (Hbad := Hreads ["scores"; "bad"]).
  unfold options in *.
  rewrite !read_path_own in Htitle, Hcall.
  rewrite !read_path_two in Hgood, Hbad.
  specialize (Htitle ltac:(set_solver)). specialize (Hcall ltac:(set_solver)).
  specialize (Hgood ltac:(set_solver)). specialize (Hbad ltac:(set_solver)).
  injection Htitle as Htitle. injection Hcall as Hcall.
  unfold getResult, calculateResult, findList, bind, ret, lift, get_paper,
    get_this, put_this. cbn.
  fold (found (paper w1)). fold (found (paper w2)). rewrite <- Hfound.
  destruct (found (paper w1)); cbn.
  - rewrite Hgood, Htitle.
    destruct (get_prop (own (_config (this w2)) "scores") "good"); reflexivity.
  - rewrite Hbad, Htitle, Hcall.
    destruct (get_prop (own (_config (this w2)) "scores") "bad"); reflexivity.
Qed.

(** The score is the option [scores.good] or [scores.bad], kept when it
    is a number. *)
Lemma getResult_score (w : World t) (v : value) :
  read_path ["scores"; if found (paper w) then "good" else "bad"]
    (VObj (_config (this w))) = Ret v ->
  exists res,
    fst (getResult w) = Ret res
    /\ AssessmentResult.score res = match v with VNum n => Some n | _ => None end
    /\ AssessmentResult.hasMarks res = false.
Proof.
  rewrite read_path_two. intros Hv.
  unfold getResult, calculateResult, findList, bind, ret, lift, get_paper,
    get_this, put_this. cbn.
  fold (found (paper w)).
  destruct (found (paper w)); cbn; rewrite Hv; cbn;
    (eexists; split; [reflexivity|]); destruct v; split; reflexivity.
Qed.

Lemma getResult_throws (w : World t) (e : error) :
  read_path ["scores"; if found (paper w) then "good" else "bad"]
    (VObj (_config (this w))) = Throw e ->
  fst (getResult w) = Throw e.
Proof.
  rewrite read_path_two. intros Hv.
  unfold getResult, calculateResult, findList, bind, ret, lift, get_paper,
    get_this, put_this. cbn.
  fold (found (paper w)).
  destruct (found (paper w)); cbn; rewrite Hv; reflexivity.
Qed.

Lemma defaultConfig_of_constructor : _config (constructor None) = defaultConfig.
Proof. cbn. apply merge_empty_source. Qed.

End ListAssessmentFacts.

(** ** TextCompetingLinksAssessment *)

Section TextCompetingLinksFacts.
Context `{Collaborators}.
Import TextCompetingLinksAssessment.

Local Arguments own : simpl never.
Local Arguments Researcher.getResearch : simpl never.

Local Ltac run :=
  unfold getResult, calculateResult, getResearch, bind, ret, lift, get_paper,
    get_this, put_this; cbn.

(** The result is a function of the researcher and of the four options
    read from [_config]. *)
Lemma competing_getResult_reads (w1 w2 : World t) :
  researcher w1 = researcher w2 ->
  (forall p, p ∈ options ->
     read_path p (VObj (_config (this w1))) = read_path p (VObj (_config (this w2)))) ->
  fst (getResult w1) = fst (getResult w2).
Proof.
  intros Hres Hreads.
  assert (Htitle := Hreads ["urlTitle"]).
  assert (Hcall := Hreads ["urlCallToAction"]).
  assert (Hmax := Hreads ["parameters"; "recommendedMaximum"]).
  assert (Hbad := Hreads ["scores"; "bad"]).
  unfold options in *.
  rewrite !read_path_own in Htitle, Hcall.
  rewrite !read_path_two in Hmax, Hbad.
  specialize (Htitle ltac:(set_solver)). specialize (Hcall ltac:(set_solver)).
  specialize (Hmax ltac:(set_solver)). specialize (Hbad ltac:(set_solver)).
  injection Htitle as Htitle. injection Hcall as Hcall.
  run. rewrite <- Hres.
  destruct (Researcher.getResearch _ (researcher w1)) as [[research|e] r]; cbn;
    [|reflexivity].
  destruct (get_prop research _) as [count|e]; cbn; [|reflexivity].
  rewrite Hmax.
  destruct (get_prop (own (_config (this w2)) "parameters") _) as [rm|e]; cbn;
    [|reflexivity].
  destruct (js_gt count rm); cbn; [|reflexivity].
  rewrite Hbad, Htitle, Hcall.
  destruct (get_prop (own (_config (this w2)) "scores") _); reflexivity.
Qed.

(** What a call leaves behind: the researcher after its lookup, the same
    paper and the same configuration. *)
Lemma competing_getResult_world (w : World t) :
  paper (snd (getResult w)) = paper w
  /\ researcher (snd (getResult w)) =
     snd (Researcher.getResearch "getAnchorsWithKeyphrase" (researcher w))
  /\ _config (this (snd (getResult w))) = _config (this w).
Proof.
  run.
  destruct (Researcher.getResearch _ (researcher w)) as [[research|e] r]; cbn;
    [|auto].
  destruct (get_prop research _) as [count|e]; cbn; [|auto].
  destruct (get_prop (own (_config (this w)) "parameters") _) as [rm|e]; cbn;
    [|auto].
  destruct (js_gt count rm); cbn; [|auto].
  destruct (get_prop (own (_config (this w)) "scores") _); cbn; auto.
Qed.

(** Not more anchors than the recommended maximum: the untouched new
    result. *)
Lemma competing_getResult_within (w : World t) (research count rm : value) :
  fst (Researcher.getResearch "getAnchorsWithKeyphrase" (researcher w)) = Ret research ->
  get_prop research "anchorsWithKeyphraseCount" = Ret count ->
  read_path ["parameters"; "recommendedMaximum"] (VObj (_config (this w))) = Ret rm ->
  js_gt count rm = false ->
  fst (getResult w) = Ret AssessmentResult.new.
Proof.
  rewrite read_path_two. intros Hres Hcount Hmax Hgt. run.
  destruct (Researcher.getResearch _ (researcher w)) as [o r]; cbn in *.
  subst o. cbn. rewrite Hcount. cbn. rewrite Hmax. cbn. rewrite Hgt. reflexivity.
Qed.

(** More anchors than the recommended maximum: the bad score, when it is
    a number, and no marks. *)
Lemma competing_getResult_exceeds (w : World t) (research count rm bad : value) :
  fst (Researcher.getResearch "getAnchorsWithKeyphrase" (researcher w)) = Ret research ->
  get_prop research "anchorsWithKeyphraseCount" = Ret count ->
  read_path ["parameters"; "recommendedMaximum"] (VObj (_config (this w))) = Ret rm ->
  js_gt count rm = true ->
  read_path ["scores"; "bad"] (VObj (_config (this w))) = Ret bad ->
  exists res,
    fst (getResult w) = Ret res
    /\ AssessmentResult.score res = match bad with VNum n => Some n | _ => None end
    /\ AssessmentResult.hasMarks res = false.
Proof.
  rewrite !read_path_two. intros Hres Hcount Hmax Hgt Hbad. run.
  destruct (Researcher.getResearch _ (researcher w)) as [o r]; cbn in *.
  subst o. cbn. rewrite Hcount. cbn. rewrite Hmax. cbn. rewrite Hgt. cbn.
  rewrite Hbad. cbn. eexists. split; [reflexivity|].
  destruct bad; split; reflexivity.
Qed.

(** Every score that the check sets is its bad score, set because the
    count exceeded the maximum, on a result without marks. *)
Lemma competing_getResult_scored (w : World t) (res : AssessmentResult.t) (s : Z) :
  fst (getResult w) = Ret res ->
  AssessmentResult.score res = Some s ->
  exists research count rm,
    fst (Researcher.getResearch "getAnchorsWithKeyphrase" (researcher w)) = Ret research
    /\ get_prop research "anchorsWithKeyphraseCount" = Ret count
    /\ read_path ["parameters"; "recommendedMaximum"] (VObj (_config (this w))) = Ret rm
    /\ js_gt count rm = true
    /\ read_path ["scores"; "bad"] (VObj (_config (this w))) = Ret (VNum s)
    /\ AssessmentResult.hasMarks res = false.
Proof.
  rewrite !read_path_two. run.
  destruct (Researcher.getResearch _ (researcher w)) as [[research|e] r]; cbn;
    [|discriminate].
  destruct (get_prop research _) as [count|e] eqn:Hcount; cbn; [|discriminate].
  destruct (get_prop (own (_config (this w)) "parameters") _) as [rm|e] eqn:Hmax;
    cbn; [|discriminate].
  destruct (js_gt count rm) eqn:Hgt; cbn.
  - destruct (get_prop (own (_config (this w)) "scores") _) as [bad|e] eqn:Hbad;
      cbn; [|discriminate].
    intros [= <-] Hs. exists research, count, rm.
    destruct bad; cbn in Hs; try discriminate. injection Hs as ->. auto 10.
  - intros [= <-] Hs. discriminate.
Qed.


Lemma competing_defaultConfig_of_constructor :
  _config (constructor None) = defaultConfig.
Proof. cbn. apply merge_empty_source. Qed.

End TextCompetingLinksFacts.

(** Failures, and what a call stores. *)
Section TextCompetingLinksEffects.
Context `{Collaborators}.
Import TextCompetingLinksAssessment.

Local Arguments own : simpl never.
Local Arguments Researcher.getResearch : simpl never.

Local Ltac run_getResult :=
  unfold getResult, calculateResult, getResearch, bind, ret, lift, get_paper,
    get_this, put_this; cbn.

Lemma competing_getResult_lookup_fails (w : World t) (e : error) :
  fst (Researcher.getResearch "getAnchorsWithKeyphrase" (researcher w)) = Throw e ->
  fst (getResult w) = Throw e /\ this (snd (getResult w)) = this w.
Proof.
  intros Hres. run_getResult.
  destruct (Researcher.getResearch _ (researcher w)) as [o r]; cbn in *.
  subst o. auto.
Qed.

Lemma competing_getResult_nullish_research (w : World t) (research : value) :
  fst (Researcher.getResearch "getAnchorsWithKeyphrase" (researcher w)) = Ret research ->
  nullish research = true ->
  fst (getResult w) = Throw TypeError /\ this (snd (getResult w)) = this w.
Proof.
  intros Hres Hnull. run_getResult.
  destruct (Researcher.getResearch _ (researcher w)) as [o r]; cbn in *.
  subst o. cbn. rewrite (get_prop_throws _ _ Hnull). auto.
Qed.

Lemma competing_getResult_stores_count (w : World t) (research count : value) :
  fst (Researcher.getResearch "getAnchorsWithKeyphrase" (researcher w)) = Ret research ->
  get_prop research "anchorsWithKeyphraseCount" = Ret count ->
  this (snd (getResult w))
  = {| _config := _config (this w);
       identifier := identifier (this w);
       totalAnchorsWithKeyphrase := count |}.
Proof.
  intros Hres Hcount. run_getResult.
  destruct (Researcher.getResearch _ (researcher w)) as [o r]; cbn in *.
  subst o. cbn. rewrite Hcount. cbn.
  destruct (get_prop (own (_config (this w)) "parameters") _) as [rm|e]; cbn;
    [|reflexivity].
  destruct (js_gt count rm); cbn; [|reflexivity].
  destruct (get_prop (own (_config (this w)) "scores") _); reflexivity.
Qed.

Lemma competing_getResult_exceeds_throws (w : World t)
    (research count rm : value) (e : error) :
  fst (Researcher.getResearch "getAnchorsWithKeyphrase" (researcher w)) = Ret research ->
  get_prop research "anchorsWithKeyphraseCount" = Ret count ->
  read_path ["parameters"; "recommendedMaximum"] (VObj (_config (this w))) = Ret rm ->
  js_gt count rm = true ->
  read_path ["scores"; "bad"] (VObj (_config (this w))) = Throw e ->
  fst (getResult w) = Throw e.
Proof.
  rewrite !read_path_two. intros Hres Hcount Hmax Hgt Hbad. run_getResult.
  destruct (Researcher.getResearch _ (researcher w)) as [o r]; cbn in *.
  subst o. cbn. rewrite Hcount. cbn. rewrite Hmax. cbn. rewrite Hgt. cbn.
  rewrite Hbad. reflexivity.
Qed.

Lemma js_gt_undefined (rm : value) : js_gt VUndef rm = false.
Proof. unfold js_gt. cbn. destruct (to_number rm) as [[|]|]; reflexivity. Qed.

End TextCompetingLinksEffects.

(** * The claims *)

(** ** The list scenario *)

(** C1. For the Content Unit with text ["<ul><li>a</li></ul> dogs"] and
    keyphrase ["dogs"], when removing HTML blocks leaves that text as it is,
    [getResult] of a [ListAssessment] built with the default configuration
    returns a result whose score is the good threshold, 9, and whose
    [hasMarks] is false. *)
Theorem list_scenario_scores_good `{Collaborators}
    (synonyms : list jsstring) (locale : string)
    (attributes : gmap string string) (r : Researcher.t) :
  removeHtmlBlocks (Paper.getText (list_scenario_paper synonyms locale attributes))
    = Paper.getText (list_scenario_paper synonyms locale attributes) ->
  exists res,
    fst (ListAssessment.getResult
           (Build_World (list_scenario_paper synonyms locale attributes) r
                        (ListAssessment.constructor None))) = Ret res
    /\ read_path ["scores"; "good"]
         (VObj (ListAssessment._config (ListAssessment.constructor None)))
       = Ret (VNum 9)
    /\ AssessmentResult.score res = Some 9%Z
    /\ AssessmentResult.hasMarks res = false.
Proof.
  intros Hkeep.
  set (w := Build_World _ r (ListAssessment.constructor None)).
  assert (Hfound : ListAssessment.found (paper w) = true).
  { unfold ListAssessment.found. cbn [paper w]. rewrite Hkeep. vm_compute. reflexivity. }
  assert (Hgood : read_path ["scores"; "good"]
                    (VObj (ListAssessment._config (ListAssessment.constructor None)))
                  = Ret (VNum 9)).
  { rewrite defaultConfig_of_constructor. reflexivity. }
  destruct (getResult_score w (VNum 9)) as (res & Hres & Hscore & Hmarks).
  { rewrite Hfound. exact Hgood. }
  exists res. auto.
Qed.

Lemma list_scenario_scores_good_witness :
  @removeHtmlBlocks Sample.collaborators (Paper.getText (list_scenario_paper [] "en_US" ∅))
    = Paper.getText (list_scenario_paper [] "en_US" ∅)
  /\ exists res,
       fst (@ListAssessment.getResult Sample.collaborators
              (Build_World (list_scenario_paper [] "en_US" ∅)
                 (Sample.researcher_empty (list_scenario_paper [] "en_US" ∅))
                 (@ListAssessment.constructor Sample.collaborators None))) = Ret res
       /\ read_path ["scores"; "good"]
            (VObj (ListAssessment._config
                     (@ListAssessment.constructor Sample.collaborators None)))
          = Ret (VNum 9)
       /\ AssessmentResult.score res = Some 9%Z
       /\ AssessmentResult.hasMarks res = false.
Proof.
  split; [reflexivity|].
  apply (@list_scenario_scores_good Sample.collaborators). reflexivity.
Defined.

(** ** Applicability *)

(** C7. For every Content Unit with empty text,
    [TextCompetingLinksAssessment.isApplicable] returns false, and the
    Orchestrator step then skips the check: no Result, nothing changed. *)
Theorem empty_text_is_not_applicable `{Collaborators}
    (w : World TextCompetingLinksAssessment.t) :
  Paper.getText (paper w) = [] ->
  TextCompetingLinksAssessment.isApplicable w = (Ret false, w)
  /\ run_check TextCompetingLinksAssessment.isApplicable
       TextCompetingLinksAssessment.getResult w = (None, w).
Proof.
  intros Hempty.
  assert (Happ : TextCompetingLinksAssessment.isApplicable w = (Ret false, w)).
  { unfold TextCompetingLinksAssessment.isApplicable, bind, get_paper, ret,
      Paper.hasText.
    unfold Paper.getText in Hempty. rewrite Hempty. reflexivity. }
  split; [exact Happ|].
  unfold run_check. rewrite Happ. reflexivity.
Qed.

Lemma empty_text_is_not_applicable_witness :
  Paper.getText Sample.empty_paper = []
  /\ TextCompetingLinksAssessment.isApplicable
       (Sample.world_of Sample.empty_paper (fun p => Sample.researcher_counting p 3)
          (@TextCompetingLinksAssessment.constructor Sample.collaborators None))
     = (Ret false,
        Sample.world_of Sample.empty_paper (fun p => Sample.researcher_counting p 3)
          (@TextCompetingLinksAssessment.constructor Sample.collaborators None)).
Proof.
  split; [reflexivity|].
  apply (@empty_text_is_not_applicable Sample.collaborators). reflexivity.
Defined.



(** ** The list pattern of [findList] *)

(** What the pattern of [findList] accepts: [findList] returns, changes
    nothing, and returns true exactly when the text left by HTML-block
    removal holds ["<ul"] or ["<ol"], then code units none of which is a
    line terminator, then [">"], then anything, then ["</ul>"] or
    ["</ol>"].  Opening and closing tags need not agree, and anything may
    stand between them. *)
Lemma findList_detects_list_shape `{Collaborators} (w : World ListAssessment.t) :
  (exists b, ListAssessment.findList w = (Ret b, w))
  /\ (fst (ListAssessment.findList w) = Ret true
      <-> list_shape (removeHtmlBlocks (Paper.getText (paper w))))
  /\ (forall body : jsstring,
        list_shape (of_string "<ol>" ++ body ++ of_string "</ul>")).
Proof.
  rewrite findList_run. cbn [fst]. split; [eauto|]. split.
  - unfold ListAssessment.found. rewrite <- regex_test_list_shape.
    split; [intros [= ->]; reflexivity|intros ->; reflexivity].
  - intros body.
    exists [], 111%N, [], body, 117%N, []. repeat split. constructor.
Qed.

(** With a line feed inside the opening tag the text has the shape with
    any characters before the [>], yet [findList] returns false. *)
Lemma findList_misses_multiline_opening_tag :
  ~ (fst (@ListAssessment.findList Sample.collaborators
            (Sample.world_of Sample.multiline_list_paper Sample.researcher_empty
               (@ListAssessment.constructor Sample.collaborators None))) = Ret true
     <-> list_shape_any_characters
           (@removeHtmlBlocks Sample.collaborators
              (Paper.getText Sample.multiline_list_paper))).
Proof.
  intros [_ Hback].
  assert (Hshape : list_shape_any_characters
                     (@removeHtmlBlocks Sample.collaborators
                        (Paper.getText Sample.multiline_list_paper))).
  { exists [], 117%N, (of_string " title='a" ++ [10] ++ of_string "b'")%N,
      (of_string "<li>x</li>"), 117%N, [].
    repeat split. }
  specialize (Hback Hshape). vm_compute in Hback. discriminate.
Qed.

(** C10. The claim does not hold of the code at the text
    [<ul title='a], line feed, [b'><li>x</li></ul>], which HTML-block
    removal leaves as it is.  The text holds an unordered list: it has
    ["<ul"], then characters, then [">"], and later ["</ul>"].  Yet
    [findList] returns false, because the [.] between the tag name and
    the [>] does not match the line feed, where the [[\s\S]] used for the
    body would. *)
Theorem findList_false_on_multiline_opening_tag `{Collaborators}
    (w : World ListAssessment.t) :
  Paper.getText (paper w) = multiline_list_text ->
  removeHtmlBlocks multiline_list_text = multiline_list_text ->
  list_shape_any_characters (removeHtmlBlocks (Paper.getText (paper w)))
  /\ ListAssessment.findList w = (Ret false, w).
Proof.
  intros Htext Hkeep. rewrite findList_run. unfold ListAssessment.found.
  rewrite Htext, Hkeep. split.
  - exists [], 117%N, (of_string " title='a" ++ [10] ++ of_string "b'")%N,
      (of_string "<li>x</li>"), 117%N, [].
    repeat split.
  - f_equal.
Qed.

Lemma findList_false_on_multiline_opening_tag_witness :
  list_shape_any_characters
    (@removeHtmlBlocks Sample.collaborators
       (Paper.getText Sample.multiline_list_paper))
  /\ @ListAssessment.findList Sample.collaborators
       (Sample.world_of Sample.multiline_list_paper Sample.researcher_empty
          (@ListAssessment.constructor Sample.collaborators None))
     = (Ret false,
        Sample.world_of Sample.multiline_list_paper Sample.researcher_empty
          (@ListAssessment.constructor Sample.collaborators None)).
Proof.
  apply (@findList_false_on_multiline_opening_tag Sample.collaborators
           (Sample.world_of Sample.multiline_list_paper Sample.researcher_empty
              (@ListAssessment.constructor Sample.collaborators None)));
    reflexivity.
Defined.

(** ** Scratch fields and determinism *)

(** [getResult] keeps the configuration of the instance. *)
Lemma list_getResult_keeps_config `{Collaborators} (w : World ListAssessment.t) :
  ListAssessment._config (this (snd (ListAssessment.getResult w)))
  = ListAssessment._config (this w).
Proof. rewrite getResult_world. reflexivity. Qed.

(** C2. An instance that carries the configuration of [constructor config],
    whatever its scratch field holds, is run on [p1] and then on [p2]: the
    second run returns what a freshly constructed instance returns for
    [p2].  This holds for [ListAssessment] ([textContainsList]) and for
    [TextCompetingLinksAssessment] ([totalAnchorsWithKeyphrase]). *)
Theorem reuse_leaves_no_residue `{Collaborators}
    (config : option obj) (p1 p2 : Paper.t) (r1 r2 : Researcher.t)
    (li : ListAssessment.t) (ci : TextCompetingLinksAssessment.t) :
  ListAssessment._config li
    = ListAssessment._config (ListAssessment.constructor config) ->
  TextCompetingLinksAssessment._config ci
    = TextCompetingLinksAssessment._config
        (TextCompetingLinksAssessment.constructor config) ->
  fst (ListAssessment.getResult
         (Build_World p2 r2
            (this (snd (ListAssessment.getResult (Build_World p1 r1 li))))))
  = fst (ListAssessment.getResult
           (Build_World p2 r2 (ListAssessment.constructor config)))
  /\ fst (TextCompetingLinksAssessment.getResult
            (Build_World p2 r2
               (this (snd (TextCompetingLinksAssessment.getResult
                             (Build_World p1 r1 ci))))))
     = fst (TextCompetingLinksAssessment.getResult
              (Build_World p2 r2 (TextCompetingLinksAssessment.constructor config))).
Proof.
  intros Hl Hc. split.
  - apply getResult_reads; [reflexivity|]. intros p _. cbn [this].
    rewrite list_getResult_keeps_config. cbn [this]. rewrite Hl. reflexivity.
  - apply competing_getResult_reads; [reflexivity|]. intros p _. cbn [this].
    destruct (competing_getResult_world (Build_World p1 r1 ci)) as (_ & _ & ->).
    cbn [this]. rewrite Hc. reflexivity.
Qed.

Lemma reuse_leaves_no_residue_witness :
  fst (@ListAssessment.getResult Sample.collaborators
         (Build_World Sample.plain_paper (Sample.researcher_counting Sample.plain_paper 0)
            (this (snd (@ListAssessment.getResult Sample.collaborators
                          (Build_World Sample.list_paper
                             (Sample.researcher_counting Sample.list_paper 4)
                             (@ListAssessment.constructor Sample.collaborators None)))))))
  = fst (@ListAssessment.getResult Sample.collaborators
           (Build_World Sample.plain_paper (Sample.researcher_counting Sample.plain_paper 0)
              (@ListAssessment.constructor Sample.collaborators None)))
  /\ fst (@TextCompetingLinksAssessment.getResult Sample.collaborators
            (Build_World Sample.plain_paper (Sample.researcher_counting Sample.plain_paper 0)
               (this (snd (@TextCompetingLinksAssessment.getResult Sample.collaborators
                             (Build_World Sample.list_paper
                                (Sample.researcher_counting Sample.list_paper 4)
                                (@TextCompetingLinksAssessment.constructor
                                   Sample.collaborators None)))))))
     = fst (@TextCompetingLinksAssessment.getResult Sample.collaborators
              (Build_World Sample.plain_paper
                 (Sample.researcher_counting Sample.plain_paper 0)
                 (@TextCompetingLinksAssessment.constructor Sample.collaborators None))).
Proof.
  apply (@reuse_leaves_no_residue Sample.collaborators None); reflexivity.
Defined.

(** C4. [getResult] is deterministic: two calls on the same Content Unit,
    with the researcher in the same state, by instances of the same
    configuration (their scratch fields may differ, as they do between a
    first and a second call) return equal results and leave the researcher
    in equal states. *)
Theorem getResult_is_deterministic `{Collaborators}
    (lw1 lw2 : World ListAssessment.t)
    (cw1 cw2 : World TextCompetingLinksAssessment.t) :
  paper lw1 = paper lw2 ->
  researcher lw1 = researcher lw2 ->
  ListAssessment._config (this lw1) = ListAssessment._config (this lw2) ->
  paper cw1 = paper cw2 ->
  researcher cw1 = researcher cw2 ->
  TextCompetingLinksAssessment._config (this cw1)
    = TextCompetingLinksAssessment._config (this cw2) ->
  (fst (ListAssessment.getResult lw1) = fst (ListAssessment.getResult lw2)
   /\ researcher (snd (ListAssessment.getResult lw1))
      = researcher (snd (ListAssessment.getResult lw2)))
  /\ (fst (TextCompetingLinksAssessment.getResult cw1)
      = fst (TextCompetingLinksAssessment.getResult cw2)
      /\ researcher (snd (TextCompetingLinksAssessment.getResult cw1))
         = researcher (snd (TextCompetingLinksAssessment.getResult cw2))).
Proof.
  intros Hlp Hlr Hlc Hcp Hcr Hcc. split; split.
  - apply getResult_reads; [rewrite Hlp; reflexivity|].
    intros p _. rewrite Hlc. reflexivity.
  - rewrite !getResult_world. cbn [researcher]. exact Hlr.
  - apply competing_getResult_reads; [exact Hcr|].
    intros p _. rewrite Hcc. reflexivity.
  - destruct (competing_getResult_world cw1) as (_ & -> & _).
    destruct (competing_getResult_world cw2) as (_ & -> & _).
    rewrite Hcr. reflexivity.
Qed.

Lemma getResult_is_deterministic_witness :
  fst (@ListAssessment.getResult Sample.collaborators
         (Build_World Sample.list_paper (Sample.researcher_counting Sample.list_paper 1)
            (@ListAssessment.constructor Sample.collaborators None)))
  = fst (@ListAssessment.getResult Sample.collaborators
           (Build_World Sample.list_paper (Sample.researcher_counting Sample.list_paper 1)
              {| ListAssessment._config :=
                   ListAssessment._config
                     (@ListAssessment.constructor Sample.collaborators None);
                 ListAssessment.identifier := "listsPresence";
                 ListAssessment.textContainsList := VBool false |}))
  /\ fst (@TextCompetingLinksAssessment.getResult Sample.collaborators
            (Build_World Sample.list_paper (Sample.researcher_counting Sample.list_paper 1)
               (@TextCompetingLinksAssessment.constructor Sample.collaborators None)))
     = fst (@TextCompetingLinksAssessment.getResult Sample.collaborators
              (Build_World Sample.list_paper
                 (Sample.researcher_counting Sample.list_paper 1)
                 {| TextCompetingLinksAssessment._config :=
                      TextCompetingLinksAssessment._config
                        (@TextCompetingLinksAssessment.constructor
                           Sample.collaborators None);
                    TextCompetingLinksAssessment.identifier := "textCompetingLinks";
                    TextCompetingLinksAssessment.totalAnchorsWithKeyphrase := VNum 7 |})).
Proof.
  split.
  - apply (@getResult_is_deterministic Sample.collaborators
             (Build_World Sample.list_paper
                (Sample.researcher_counting Sample.list_paper 1) _)
             (Build_World Sample.list_paper
                (Sample.researcher_counting Sample.list_paper 1) _)
             (Build_World Sample.list_paper
                (Sample.researcher_counting Sample.list_paper 1)
                (@TextCompetingLinksAssessment.constructor Sample.collaborators None))
             (Build_World Sample.list_paper
                (Sample.researcher_counting Sample.list_paper 1)
                (@TextCompetingLinksAssessment.constructor Sample.collaborators None)));
      reflexivity.
  - apply (@getResult_is_deterministic Sample.collaborators
             (Build_World Sample.list_paper
                (Sample.researcher_counting Sample.list_paper 1)
                (@ListAssessment.constructor Sample.collaborators None))
             (Build_World Sample.list_paper
                (Sample.researcher_counting Sample.list_paper 1)
                (@ListAssessment.constructor Sample.collaborators None))
             (Build_World Sample.list_paper
                (Sample.researcher_counting Sample.list_paper 1) _)
             (Build_World Sample.list_paper
                (Sample.researcher_counting Sample.list_paper 1) _));
      reflexivity.
Defined.

(** ** Configuration *)

Lemma list_options_defined `{Collaborators} (p : list string) :
  p ∈ ListAssessment.options -> is_Some (option_at p ListAssessment.defaultConfig).
Proof.
  unfold ListAssessment.options. intros Hp.
  repeat (apply elem_of_cons in Hp as [->|Hp]); try (eexists; reflexivity).
  apply elem_of_nil in Hp. contradiction.
Qed.

Lemma competing_options_defined `{Collaborators} (p : list string) :
  p ∈ TextCompetingLinksAssessment.options ->
  is_Some (option_at p TextCompetingLinksAssessment.defaultConfig).
Proof.
  unfold TextCompetingLinksAssessment.options. intros Hp.
  repeat (apply elem_of_cons in Hp as [->|Hp]); try (eexists; reflexivity).
  apply elem_of_nil in Hp. contradiction.
Qed.

(** C3. For every configuration record [cfg] passed to the constructor of
    either check: every recognised option that [cfg] misses has, in the
    merged configuration, the value the built-in defaults give it; and a
    record [cfg'] that differs from [cfg] by options unknown to the check
    makes [getResult] return what it returns with [cfg]. *)
Theorem configuration_defaults_and_unknown_options `{Collaborators} (cfg : obj) :
  (forall p, p ∈ ListAssessment.options -> missing p cfg = true ->
     is_Some (option_at p ListAssessment.defaultConfig)
     /\ option_at p (ListAssessment._config (ListAssessment.constructor (Some cfg)))
        = option_at p ListAssessment.defaultConfig)
  /\ (forall cfg' paper researcher,
        differ_by_unknown ListAssessment.options cfg cfg' ->
        fst (ListAssessment.getResult
               (Build_World paper researcher (ListAssessment.constructor (Some cfg'))))
        = fst (ListAssessment.getResult
                 (Build_World paper researcher (ListAssessment.constructor (Some cfg)))))
  /\ (forall p, p ∈ TextCompetingLinksAssessment.options -> missing p cfg = true ->
        is_Some (option_at p TextCompetingLinksAssessment.defaultConfig)
        /\ option_at p (TextCompetingLinksAssessment._config
                          (TextCompetingLinksAssessment.constructor (Some cfg)))
           = option_at p TextCompetingLinksAssessment.defaultConfig)
  /\ (forall cfg' paper researcher,
        differ_by_unknown TextCompetingLinksAssessment.options cfg cfg' ->
        fst (TextCompetingLinksAssessment.getResult
               (Build_World paper researcher
                  (TextCompetingLinksAssessment.constructor (Some cfg'))))
        = fst (TextCompetingLinksAssessment.getResult
                 (Build_World paper researcher
                    (TextCompetingLinksAssessment.constructor (Some cfg))))).
Proof.
  repeat split.
  - apply list_options_defined; assumption.
  - destruct (list_options_defined p) as [v Hv]; [assumption|].
    rewrite Hv. cbn [ListAssessment.constructor ListAssessment._config default].
    apply option_at_merge_missing; assumption.
  - intros cfg' p r Hadd. apply getResult_reads; [reflexivity|].
    intros q Hq. cbn [this ListAssessment.constructor ListAssessment._config default].
    eapply read_path_differ_by_unknown;
      [eassumption|apply list_options_defined|assumption].
  - apply competing_options_defined; assumption.
  - destruct (competing_options_defined p) as [v Hv]; [assumption|].
    rewrite Hv.
    cbn [TextCompetingLinksAssessment.constructor
           TextCompetingLinksAssessment._config default].
    apply option_at_merge_missing; assumption.
  - intros cfg' p r Hadd. apply competing_getResult_reads; [reflexivity|].
    intros q Hq.
    cbn [this TextCompetingLinksAssessment.constructor
           TextCompetingLinksAssessment._config default].
    eapply read_path_differ_by_unknown;
      [eassumption|apply competing_options_defined|assumption].
Qed.

Lemma extended_config_differs_by_unknown (options : list (list string)) :
  options = ListAssessment.options \/ options = TextCompetingLinksAssessment.options ->
  differ_by_unknown options Sample.partial_config Sample.extended_config.
Proof.
  intros Hopt. unfold Sample.extended_config.
  eapply rtc_l; [|apply rtc_once].
  - apply (unknown_here options Sample.partial_config "colour" (VStr "red")).
    intros p Hp.
    destruct Hopt as [-> | ->];
      repeat (apply elem_of_cons in Hp as [->|Hp]);
      try (split; discriminate);
      apply elem_of_nil in Hp; contradiction.
  - apply (unknown_inside options _ "scores"
             (<["medium" := VNum 6]> {[ "bad" := VNum 1 ]})).
    + destruct Hopt as [-> | ->]; intros Hp;
        repeat (apply elem_of_cons in Hp as [Hp|Hp]); try discriminate;
        apply elem_of_nil in Hp; contradiction.
    + exact I.
    + apply (unknown_here _ _ "medium" (VNum 6)). intros p Hp.
      apply elem_of_tails_under in Hp.
      destruct Hopt as [-> | ->];
        repeat (apply elem_of_cons in Hp as [Hp|Hp]);
        try (injection Hp as ->; split; discriminate); try discriminate;
        apply elem_of_nil in Hp; contradiction.
Qed.

Lemma configuration_defaults_and_unknown_options_witness :
  (missing ["scores"; "good"] Sample.partial_config = true
   /\ option_at ["scores"; "good"]
        (ListAssessment._config
           (@ListAssessment.constructor Sample.collaborators (Some Sample.partial_config)))
      = Some (VNum 9))
  /\ (differ_by_unknown ListAssessment.options Sample.partial_config Sample.extended_config
      /\ fst (@ListAssessment.getResult Sample.collaborators
                (Build_World Sample.list_paper (Sample.researcher_empty Sample.list_paper)
                   (@ListAssessment.constructor Sample.collaborators
                      (Some Sample.extended_config))))
         = fst (@ListAssessment.getResult Sample.collaborators
                  (Build_World Sample.list_paper (Sample.researcher_empty Sample.list_paper)
                     (@ListAssessment.constructor Sample.collaborators
                        (Some Sample.partial_config)))))
  /\ (missing ["parameters"; "recommendedMaximum"] Sample.partial_config = true
      /\ option_at ["parameters"; "recommendedMaximum"]
           (TextCompetingLinksAssessment._config
              (@TextCompetingLinksAssessment.constructor Sample.collaborators
                 (Some Sample.partial_config)))
         = Some (VNum 0))
  /\ (differ_by_unknown TextCompetingLinksAssessment.options
        Sample.partial_config Sample.extended_config
      /\ fst (@TextCompetingLinksAssessment.getResult Sample.collaborators
                (Build_World Sample.list_paper
                   (Sample.researcher_counting Sample.list_paper 2)
                   (@TextCompetingLinksAssessment.constructor Sample.collaborators
                      (Some Sample.extended_config))))
         = fst (@TextCompetingLinksAssessment.getResult Sample.collaborators
                  (Build_World Sample.list_paper
                     (Sample.researcher_counting Sample.list_paper 2)
                     (@TextCompetingLinksAssessment.constructor Sample.collaborators
                        (Some Sample.partial_config))))).
Proof.
  destruct (@configuration_defaults_and_unknown_options
              Sample.collaborators Sample.partial_config)
    as (Hlm & Hlu & Hcm & Hcu).
  split; [split; [reflexivity|]|split; [split|split; [split; [reflexivity|]|split]]].
  - destruct (Hlm ["scores"; "good"]) as [_ ->];
      [unfold ListAssessment.options; repeat constructor|reflexivity|reflexivity].
  - apply extended_config_differs_by_unknown. left. reflexivity.
  - apply Hlu. apply extended_config_differs_by_unknown. left. reflexivity.
  - destruct (Hcm ["parameters"; "recommendedMaximum"]) as [_ ->];
      [unfold TextCompetingLinksAssessment.options; repeat constructor
      |reflexivity|reflexivity].
  - apply extended_config_differs_by_unknown. right. reflexivity.
  - apply Hcu. apply extended_config_differs_by_unknown. right. reflexivity.
Defined.

(** ** Results and scores *)




(** C6. Under the default configuration every result of [getResult] has a
    score that is absent or lies in the scale from 0 to 9:
    [ListAssessment] returns a result with score 3 or 9, and a result
    returned by [TextCompetingLinksAssessment] has no score or score 2. *)
Theorem default_scores_are_in_scale `{Collaborators}
    (lw : World ListAssessment.t) (cw : World TextCompetingLinksAssessment.t)
    (cres : AssessmentResult.t) :
  ListAssessment._config (this lw)
    = ListAssessment._config (ListAssessment.constructor None) ->
  TextCompetingLinksAssessment._config (this cw)
    = TextCompetingLinksAssessment._config
        (TextCompetingLinksAssessment.constructor None) ->
  fst (TextCompetingLinksAssessment.getResult cw) = Ret cres ->
  (exists lres,
     fst (ListAssessment.getResult lw) = Ret lres
     /\ (AssessmentResult.score lres = Some 3%Z
         \/ AssessmentResult.score lres = Some 9%Z)
     /\ AssessmentResult.in_scale lres)
  /\ ((AssessmentResult.score cres = None
       \/ AssessmentResult.score cres = Some 2%Z)
      /\ AssessmentResult.in_scale cres).
Proof.
  intros Hl Hc Hret. split.
  - rewrite defaultConfig_of_constructor in Hl.
    destruct (ListAssessment.found (paper lw)) eqn:Hfound.
    + destruct (getResult_score lw (VNum 9)) as (res & Hres & Hscore & _).
      { rewrite Hfound, Hl. reflexivity. }
      exists res. unfold AssessmentResult.in_scale. rewrite Hscore.
      split; [exact Hres|]. split; [right; reflexivity|cbn; lia].
    + destruct (getResult_score lw (VNum 3)) as (res & Hres & Hscore & _).
      { rewrite Hfound, Hl. reflexivity. }
      exists res. unfold AssessmentResult.in_scale. rewrite Hscore.
      split; [exact Hres|]. split; [left; reflexivity|cbn; lia].
  - rewrite competing_defaultConfig_of_constructor in Hc.
    unfold AssessmentResult.in_scale.
    destruct (AssessmentResult.score cres) as [s|] eqn:Hs; [|auto].
    destruct (competing_getResult_scored cw cres s Hret Hs)
      as (_ & _ & _ & _ & _ & _ & _ & Hbad & _).
    rewrite Hc in Hbad.
    change (Ret (VNum 2) = Ret (VNum s)) in Hbad. injection Hbad as <-.
    split; [right; reflexivity|lia].
Qed.

Lemma default_scores_are_in_scale_witness :
  exists cres,
    fst (@TextCompetingLinksAssessment.getResult Sample.collaborators
           (Sample.world_of Sample.list_paper
              (fun p => Sample.researcher_counting p 2)
              (@TextCompetingLinksAssessment.constructor Sample.collaborators None)))
    = Ret cres
    /\ (exists lres,
          fst (@ListAssessment.getResult Sample.collaborators
                 (Sample.world_of Sample.list_paper
                    (fun p => Sample.researcher_counting p 2)
                    (@ListAssessment.constructor Sample.collaborators None)))
          = Ret lres
          /\ (AssessmentResult.score lres = Some 3%Z
              \/ AssessmentResult.score lres = Some 9%Z)
          /\ AssessmentResult.in_scale lres)
    /\ ((AssessmentResult.score cres = None
         \/ AssessmentResult.score cres = Some 2%Z)
        /\ AssessmentResult.in_scale cres).
Proof.
  eexists. split; [reflexivity|].
  apply (@default_scores_are_in_scale Sample.collaborators
           (Sample.world_of Sample.list_paper
              (fun p => Sample.researcher_counting p 2)
              (@ListAssessment.constructor Sample.collaborators None))
           (Sample.world_of Sample.list_paper
              (fun p => Sample.researcher_counting p 2)
              (@TextCompetingLinksAssessment.constructor Sample.collaborators None)));
    reflexivity.
Defined.

(** C9. With a count of anchors [n] reported by the researcher and a
    configured [recommendedMaximum] [m] (0 by default): when [n] is at most
    [m], [getResult] of [TextCompetingLinksAssessment] returns the new
    result untouched, without a score; when [n] exceeds [m], it returns a
    result whose score is the configured bad score (2 by default) and whose
    [hasMarks] is false.  Whenever a returned result has a score, the count
    exceeded the maximum, the score is the configured bad score, and
    [hasMarks] is false: the check has no good score to give. *)
Theorem competing_links_scores_only_bad `{Collaborators}
    (w : World TextCompetingLinksAssessment.t) (research : value) (n m : Z) :
  fst (Researcher.getResearch "getAnchorsWithKeyphrase" (researcher w)) = Ret research ->
  get_prop research "anchorsWithKeyphraseCount" = Ret (VNum n) ->
  read_path ["parameters"; "recommendedMaximum"]
    (VObj (TextCompetingLinksAssessment._config (this w))) = Ret (VNum m) ->
  ((n <= m)%Z ->
     fst (TextCompetingLinksAssessment.getResult w) = Ret AssessmentResult.new
     /\ AssessmentResult.score AssessmentResult.new = None)
  /\ ((m < n)%Z ->
        forall bad,
          read_path ["scores"; "bad"]
            (VObj (TextCompetingLinksAssessment._config (this w))) = Ret (VNum bad) ->
          exists res,
            fst (TextCompetingLinksAssessment.getResult w) = Ret res
            /\ AssessmentResult.score res = Some bad
            /\ AssessmentResult.hasMarks res = false)
  /\ (forall res s,
        fst (TextCompetingLinksAssessment.getResult w) = Ret res ->
        AssessmentResult.score res = Some s ->
        (m < n)%Z
        /\ read_path ["scores"; "bad"]
             (VObj (TextCompetingLinksAssessment._config (this w))) = Ret (VNum s)
        /\ AssessmentResult.hasMarks res = false)
  /\ (read_path ["parameters"; "recommendedMaximum"]
        (VObj TextCompetingLinksAssessment.defaultConfig) = Ret (VNum 0)
      /\ read_path ["scores"; "bad"]
           (VObj TextCompetingLinksAssessment.defaultConfig) = Ret (VNum 2)).
Proof.
  intros Hres Hcount Hmax. split; [|split; [|split]].
  - intros Hle. split; [|reflexivity].
    apply (competing_getResult_within w research (VNum n) (VNum m)); try assumption.
    unfold js_gt. cbn. apply Z.ltb_ge. exact Hle.
  - intros Hlt bad Hbad.
    apply (competing_getResult_exceeds w research (VNum n) (VNum m) (VNum bad));
      try assumption.
    unfold js_gt. cbn. apply Z.ltb_lt. exact Hlt.
  - intros res s Hret Hs.
    destruct (competing_getResult_scored w res s Hret Hs)
      as (research' & count' & rm' & Hres' & Hcount' & Hmax' & Hgt & Hbad & Hmarks).
    rewrite Hres in Hres'. injection Hres' as <-.
    rewrite Hcount in Hcount'. injection Hcount' as <-.
    rewrite Hmax in Hmax'. injection Hmax' as <-.
    unfold js_gt in Hgt. cbn in Hgt. apply Z.ltb_lt in Hgt. auto.
  - split; reflexivity.
Qed.

Lemma competing_links_scores_only_bad_witness :
  fst (@TextCompetingLinksAssessment.getResult Sample.collaborators
         (Sample.world_of Sample.list_paper
            (fun p => Sample.researcher_counting p 0)
            (@TextCompetingLinksAssessment.constructor Sample.collaborators None)))
  = Ret AssessmentResult.new
  /\ exists res,
       fst (@TextCompetingLinksAssessment.getResult Sample.collaborators
              (Sample.world_of Sample.list_paper
                 (fun p => Sample.researcher_counting p 3)
                 (@TextCompetingLinksAssessment.constructor Sample.collaborators None)))
       = Ret res
       /\ AssessmentResult.score res = Some 2%Z
       /\ AssessmentResult.hasMarks res = false.
Proof.
  split.
  - destruct (@competing_links_scores_only_bad Sample.collaborators
                (Sample.world_of Sample.list_paper
                   (fun p => Sample.researcher_counting p 0)
                   (@TextCompetingLinksAssessment.constructor Sample.collaborators None))
                (VObj {[ "anchorsWithKeyphraseCount" := VNum 0 ]}) 0 0
                eq_refl eq_refl eq_refl) as (Hwithin & _).
    apply Hwithin. lia.
  - destruct (@competing_links_scores_only_bad Sample.collaborators
                (Sample.world_of Sample.list_paper
                   (fun p => Sample.researcher_counting p 3)
                   (@TextCompetingLinksAssessment.constructor Sample.collaborators None))
                (VObj {[ "anchorsWithKeyphraseCount" := VNum 3 ]}) 3 0
                eq_refl eq_refl eq_refl) as (_ & Habove & _).
    apply Habove; [lia|reflexivity].
Defined.

(** ** What the hypotheses above rule out *)

(** A configuration that sets the [scores] group to [null] replaces the
    default group, and reading a score from it throws. *)
Example null_scores_group_throws :
  fst (@ListAssessment.getResult Sample.collaborators
         (Sample.world_of Sample.list_paper Sample.researcher_empty
            (@ListAssessment.constructor Sample.collaborators
               (Some {[ "scores" := VNull ]}))))
  = Throw TypeError.
Proof. reflexivity. Qed.

(** A lookup of a research that was never registered fails, and
    [getResult] passes the failure on. *)
Example unregistered_research_throws :
  fst (@TextCompetingLinksAssessment.getResult Sample.collaborators
         (Sample.world_of Sample.list_paper Sample.researcher_empty
            (@TextCompetingLinksAssessment.constructor Sample.collaborators None)))
  = Throw (UnknownComputationError "getAnchorsWithKeyphrase").
Proof. reflexivity. Qed.

(** Options given in the record win over the defaults, the others keep
    them. *)
Example partial_config_merged :
  option_at ["scores"; "bad"]
    (ListAssessment._config
       (@ListAssessment.constructor Sample.collaborators (Some Sample.partial_config)))
  = Some (VNum 1)
  /\ option_at ["scores"; "good"]
       (ListAssessment._config
          (@ListAssessment.constructor Sample.collaborators (Some Sample.partial_config)))
     = Some (VNum 9).
Proof. split; reflexivity. Qed.

(** The two outcomes of the competing-links check under the default
    configuration. *)
Example competing_links_outcomes :
  AssessmentResult.score <$>
    (match fst (@TextCompetingLinksAssessment.getResult Sample.collaborators
                  (Sample.world_of Sample.plain_paper
                     (fun p => Sample.researcher_counting p 0)
                     (@TextCompetingLinksAssessment.constructor Sample.collaborators None)))
     with Ret res => Some res | Throw _ => None end)
  = Some None
  /\ AssessmentResult.score <$>
       (match fst (@TextCompetingLinksAssessment.getResult Sample.collaborators
                     (Sample.world_of Sample.plain_paper
                        (fun p => Sample.researcher_counting p 3)
                        (@TextCompetingLinksAssessment.constructor
                           Sample.collaborators None)))
        with Ret res => Some res | Throw _ => None end)
     = Some (Some 2%Z).
Proof. split; reflexivity. Qed.

(** A text without a list scores bad, and an [<ol>] closed by [</ul>]
    counts as a list. *)
Example list_outcomes :
  AssessmentResult.score <$>
    (match fst (@ListAssessment.getResult Sample.collaborators
                  (Sample.world_of Sample.plain_paper Sample.researcher_empty
                     (@ListAssessment.constructor Sample.collaborators None)))
     with Ret res => Some res | Throw _ => None end)
  = Some (Some 3%Z)
  /\ regex_test list_regex (of_string "<ol><li>a</li></ul>") = true
  /\ regex_test list_regex (of_string "<ul>a</li>") = false.
Proof. repeat split; reflexivity. Qed.

(** * Further properties of the two checks *)

(** ** Options given to the constructor *)

Lemma read_path_of_option_at (p : list string) :
  forall (o : obj) (v : value),
    option_at p o = Some v -> read_path p (VObj o) = Ret v.
Proof.
  induction p as [|k p IH]; intros o v Hv; [discriminate|].
  destruct p as [|k' p'].
  - cbn in *. unfold own. rewrite Hv. reflexivity.
  - cbn [option_at] in Hv.
    destruct (o !! k) as [[| | | | |fields]|] eqn:Ek; try discriminate.
    cbn [read_path get_prop]. unfold own at 1. rewrite Ek. cbn [default].
    apply IH. exact Hv.
Qed.

(** A plain value given anywhere in the source record is what the merged
    record holds at that place. *)
Lemma option_at_merge_given (p : list string) :
  forall (object source : obj) (v : value),
    option_at p source = Some v ->
    plain_value v = true ->
    option_at p (merge object source) = Some v.
Proof.
  induction p as [|k p IH]; intros object source v Hv Hplain; [discriminate|].
  destruct p as [|k' p'].
  - cbn in *. rewrite lookup_merge, Hv.
    destruct v; try discriminate; reflexivity.
  - cbn [option_at] in *.
    destruct (source !! k) as [[| | | | |fields]|] eqn:Ek; try discriminate.
    rewrite lookup_merge, Ek. cbn [merge_entry]. apply IH; assumption.
Qed.

(** Entries that are [undefined], under keys the destination has, change
    nothing. *)
Lemma merge_undefined_entries (object source : obj) :
  (forall k v, source !! k = Some v -> v = VUndef /\ is_Some (object !! k)) ->
  merge object source = object.
Proof.
  intros Hsrc. apply map_eq. intros k. rewrite lookup_merge.
  destruct (source !! k) as [v|] eqn:Ek; [|reflexivity].
  destruct (Hsrc k v Ek) as [-> [d Hd]]. rewrite Hd. reflexivity.
Qed.

(** What [merge] leaves under [scores] when the destination has the
    group. *)
Lemma own_merge_scores (object source d : obj) :
  object !! "scores" = Some (VObj d) ->
  nullish (own (merge object source) "scores") = true
  <-> source !! "scores" = Some VNull.
Proof.
  intros Hd. unfold own. rewrite lookup_merge, Hd.
  destruct (source !! "scores") as [[]|]; cbn; split; intros Hn;
    try discriminate; reflexivity.
Qed.

(** X6. Every plain value (null, boolean, number, string) that the record
    passed to the constructor holds, at the top or inside nested records,
    is the value that [_config] holds at the same place: given options win
    over the defaults. *)
Theorem constructor_keeps_given_options `{Collaborators}
    (cfg : obj) (p : list string) (v : value) :
  option_at p cfg = Some v ->
  plain_value v = true ->
  option_at p (ListAssessment._config (ListAssessment.constructor (Some cfg)))
    = Some v
  /\ option_at p (TextCompetingLinksAssessment._config
                    (TextCompetingLinksAssessment.constructor (Some cfg)))
     = Some v.
Proof.
  intros Hv Hplain. split; cbn; apply option_at_merge_given; assumption.
Qed.

Lemma constructor_keeps_given_options_witness :
  option_at ["scores"; "good"]
    (ListAssessment._config
       (@ListAssessment.constructor Sample.collaborators (Some Sample.custom_config)))
  = Some (VNum 7)
  /\ option_at ["scores"; "good"]
       (TextCompetingLinksAssessment._config
          (@TextCompetingLinksAssessment.constructor Sample.collaborators
             (Some Sample.custom_config)))
     = Some (VNum 7).
Proof.
  apply (@constructor_keeps_given_options Sample.collaborators); reflexivity.
Defined.

(** X7. A record whose entries are all [undefined], under keys that the
    defaults define, builds the same instance as no argument at all, and
    so does the empty record: [_config] is the default configuration. *)
Theorem constructor_ignores_undefined_entries `{Collaborators} (cfg : obj) :
  (forall k v, cfg !! k = Some v ->
     v = VUndef
     /\ is_Some (ListAssessment.defaultConfig !! k)
     /\ is_Some (TextCompetingLinksAssessment.defaultConfig !! k)) ->
  ListAssessment.constructor (Some cfg) = ListAssessment.constructor None
  /\ ListAssessment._config (ListAssessment.constructor (Some cfg))
     = ListAssessment.defaultConfig
  /\ TextCompetingLinksAssessment.constructor (Some cfg)
     = TextCompetingLinksAssessment.constructor None
  /\ TextCompetingLinksAssessment._config
       (TextCompetingLinksAssessment.constructor (Some cfg))
     = TextCompetingLinksAssessment.defaultConfig.
Proof.
  intros Hcfg.
  assert (Hl : merge ListAssessment.defaultConfig cfg = ListAssessment.defaultConfig).
  { apply merge_undefined_entries. intros k v Hk.
    destruct (Hcfg k v Hk) as (-> & Hd & _). auto. }
  assert (Hc : merge TextCompetingLinksAssessment.defaultConfig cfg
               = TextCompetingLinksAssessment.defaultConfig).
  { apply merge_undefined_entries. intros k v Hk.
    destruct (Hcfg k v Hk) as (-> & _ & Hd). auto. }
  unfold ListAssessment.constructor, TextCompetingLinksAssessment.constructor.
  cbn [ListAssessment._config TextCompetingLinksAssessment._config].
  change (default ∅ (Some cfg)) with cfg.
  change (default ∅ (@None obj)) with (∅ : obj).
  rewrite Hl, Hc, !merge_empty_source. auto.
Qed.

Lemma constructor_ignores_undefined_entries_witness :
  @ListAssessment.constructor Sample.collaborators (Some Sample.undefined_config)
  = @ListAssessment.constructor Sample.collaborators None
  /\ @TextCompetingLinksAssessment.constructor Sample.collaborators (Some ∅)
     = @TextCompetingLinksAssessment.constructor Sample.collaborators None.
Proof.
  split.
  - apply (@constructor_ignores_undefined_entries Sample.collaborators
             Sample.undefined_config).
    intros k v Hk. unfold Sample.undefined_config in Hk.
    apply lookup_singleton_Some in Hk as [<- <-].
    repeat split; eexists; reflexivity.
  - apply (@constructor_ignores_undefined_entries Sample.collaborators ∅).
    intros k v Hk. rewrite lookup_empty in Hk. discriminate.
Defined.

(** ** ListAssessment: what a call does *)

(** X1. Whether [getResult] returns or throws, it leaves the paper, the
    researcher, [_config] and [identifier] as they were and stores in
    [textContainsList] the boolean that [findList] returns for the paper. *)
Theorem list_getResult_records_findList `{Collaborators} (w : World ListAssessment.t) :
  exists b : bool,
    ListAssessment.findList w = (Ret b, w)
    /\ snd (ListAssessment.getResult w)
       = Build_World (paper w) (researcher w)
           {| ListAssessment._config := ListAssessment._config (this w);
              ListAssessment.identifier := ListAssessment.identifier (this w);
              ListAssessment.textContainsList := VBool b |}.
Proof.
  exists (ListAssessment.found (paper w)). split.
  - apply findList_run.
  - apply getResult_world.
Qed.

(** X2. Running [getResult] again on what a first run left behind gives the
    same outcome and the same state: the call is idempotent. *)
Theorem list_getResult_idempotent `{Collaborators} (w : World ListAssessment.t) :
  ListAssessment.getResult (snd (ListAssessment.getResult w))
  = ListAssessment.getResult w.
Proof.
  rewrite (surjective_pairing (ListAssessment.getResult (snd _))).
  rewrite (surjective_pairing (ListAssessment.getResult w)) at 3.
  f_equal.
  - apply getResult_reads.
    + rewrite getResult_world. reflexivity.
    + intros p _. rewrite list_getResult_keeps_config. reflexivity.
  - rewrite (getResult_world (snd _)). rewrite !getResult_world. reflexivity.
Qed.

(** X3. Under the default configuration [getResult] returns a result whose
    score is 9 exactly when the text left by HTML-block removal has the
    shape of a list, and 3 exactly when it has not. *)
Theorem list_default_score_tells_list_shape `{Collaborators}
    (w : World ListAssessment.t) :
  ListAssessment._config (this w)
    = ListAssessment._config (ListAssessment.constructor None) ->
  exists res,
    fst (ListAssessment.getResult w) = Ret res
    /\ (AssessmentResult.score res = Some 9%Z
        <-> list_shape (removeHtmlBlocks (Paper.getText (paper w))))
    /\ (AssessmentResult.score res = Some 3%Z
        <-> ~ list_shape (removeHtmlBlocks (Paper.getText (paper w)))).
Proof.
  intros Hcfg. rewrite defaultConfig_of_constructor in Hcfg.
  pose proof (regex_test_list_shape
                (removeHtmlBlocks (Paper.getText (paper w)))) as Hshape.
  fold (ListAssessment.found (paper w)) in Hshape.
  destruct (ListAssessment.found (paper w)) eqn:Hfound.
  - destruct (getResult_score w (VNum 9)) as (res & Hres & Hscore & _).
    { rewrite Hfound, Hcfg. reflexivity. }
    exists res. rewrite Hscore. split; [exact Hres|]. split; split.
    + intros _. apply Hshape. reflexivity.
    + reflexivity.
    + discriminate.
    + intros Hno. destruct Hno. apply Hshape. reflexivity.
  - destruct (getResult_score w (VNum 3)) as (res & Hres & Hscore & _).
    { rewrite Hfound, Hcfg. reflexivity. }
    exists res. rewrite Hscore. split; [exact Hres|]. split; split.
    + discriminate.
    + intros Hyes. apply Hshape in Hyes. discriminate.
    + intros _ Hyes. apply Hshape in Hyes. discriminate.
    + reflexivity.
Qed.

Lemma list_default_score_tells_list_shape_witness :
  exists res,
    fst (@ListAssessment.getResult Sample.collaborators
           (Sample.world_of Sample.plain_paper Sample.researcher_empty
              (@ListAssessment.constructor Sample.collaborators None))) = Ret res
    /\ (AssessmentResult.score res = Some 9%Z
        <-> list_shape (@removeHtmlBlocks Sample.collaborators
                          (Paper.getText Sample.plain_paper)))
    /\ (AssessmentResult.score res = Some 3%Z
        <-> ~ list_shape (@removeHtmlBlocks Sample.collaborators
                            (Paper.getText Sample.plain_paper))).
Proof.
  apply (@list_default_score_tells_list_shape Sample.collaborators
           (Sample.world_of Sample.plain_paper Sample.researcher_empty
              (@ListAssessment.constructor Sample.collaborators None))).
  reflexivity.
Defined.

(** X4. When the record passed to the constructor gives numbers for
    [scores.good] and [scores.bad], the score of the result is the given
    good score if [findList] finds a list and the given bad score if not. *)
Theorem list_configured_scores_are_returned `{Collaborators}
    (cfg : obj) (good bad : Z) (w : World ListAssessment.t) :
  ListAssessment._config (this w)
    = ListAssessment._config (ListAssessment.constructor (Some cfg)) ->
  option_at ["scores"; "good"] cfg = Some (VNum good) ->
  option_at ["scores"; "bad"] cfg = Some (VNum bad) ->
  exists res b,
    fst (ListAssessment.findList w) = Ret b
    /\ fst (ListAssessment.getResult w) = Ret res
    /\ AssessmentResult.score res = Some (if b then good else bad).
Proof.
  intros Hcfg Hgood Hbad.
  destruct (constructor_keeps_given_options cfg _ _ Hgood eq_refl) as [Hg _].
  destruct (constructor_keeps_given_options cfg _ _ Hbad eq_refl) as [Hb _].
  apply read_path_of_option_at in Hg, Hb. rewrite <- Hcfg in Hg, Hb.
  destruct (getResult_score w
              (VNum (if ListAssessment.found (paper w) then good else bad)))
    as (res & Hres & Hscore & _).
  { destruct (ListAssessment.found (paper w)); assumption. }
  exists res, (ListAssessment.found (paper w)).
  rewrite findList_run. auto.
Qed.

Lemma list_configured_scores_are_returned_witness :
  exists res b,
    fst (@ListAssessment.findList Sample.collaborators
           (Sample.world_of Sample.list_paper Sample.researcher_empty
              (@ListAssessment.constructor Sample.collaborators
                 (Some Sample.custom_config)))) = Ret b
    /\ fst (@ListAssessment.getResult Sample.collaborators
              (Sample.world_of Sample.list_paper Sample.researcher_empty
                 (@ListAssessment.constructor Sample.collaborators
                    (Some Sample.custom_config)))) = Ret res
    /\ AssessmentResult.score res = Some (if b then 7 else 1)%Z.
Proof.
  apply (@list_configured_scores_are_returned Sample.collaborators
           Sample.custom_config 7 1); reflexivity.
Defined.

(** X5. For an instance built from the record [cfg], [getResult] throws a
    TypeError on every paper when [cfg] sets [scores] to [null], and
    returns a result on every paper otherwise. *)
Theorem list_getResult_throws_on_null_scores `{Collaborators}
    (cfg : obj) (w : World ListAssessment.t) :
  ListAssessment._config (this w)
    = ListAssessment._config (ListAssessment.constructor (Some cfg)) ->
  (cfg !! "scores" = Some VNull ->
     fst (ListAssessment.getResult w) = Throw TypeError)
  /\ (cfg !! "scores" <> Some VNull ->
        exists res, fst (ListAssessment.getResult w) = Ret res).
Proof.
  intros Hcfg.
  assert (Hnull : nullish (own (ListAssessment._config (this w)) "scores") = true
                  <-> cfg !! "scores" = Some VNull).
  { rewrite Hcfg. cbn [ListAssessment.constructor ListAssessment._config].
    change (default ∅ (Some cfg)) with cfg.
    eapply own_merge_scores. reflexivity. }
  split.
  - intros Hs. apply getResult_throws. rewrite read_path_two.
    apply get_prop_throws, Hnull, Hs.
  - intros Hs.
    destruct (nullish (own (ListAssessment._config (this w)) "scores")) eqn:Hn.
    + destruct Hs. apply Hnull. reflexivity.
    + destruct (get_prop_returns _
                  (if ListAssessment.found (paper w) then "good" else "bad") Hn)
        as [v Hv].
      destruct (getResult_score w v) as (res & Hres & _).
      { rewrite read_path_two. exact Hv. }
      exists res. exact Hres.
Qed.

Lemma list_getResult_throws_on_null_scores_witness :
  fst (@ListAssessment.getResult Sample.collaborators
         (Sample.world_of Sample.list_paper Sample.researcher_empty
            (@ListAssessment.constructor Sample.collaborators
               (Some Sample.null_scores_config)))) = Throw TypeError
  /\ exists res,
       fst (@ListAssessment.getResult Sample.collaborators
              (Sample.world_of Sample.list_paper Sample.researcher_empty
                 (@ListAssessment.constructor Sample.collaborators
                    (Some Sample.custom_config)))) = Ret res.
Proof.
  split.
  - apply (@list_getResult_throws_on_null_scores Sample.collaborators
             Sample.null_scores_config); reflexivity.
  - apply (@list_getResult_throws_on_null_scores Sample.collaborators
             Sample.custom_config); [reflexivity|discriminate].
Defined.

(** X8. [getResult] of [ListAssessment] reads nothing of the paper but its
    text and never touches the researcher: two papers with the same text,
    whatever their keyphrase and other fields and whatever the researcher,
    get the same result, and the researcher is left as it was. *)
Theorem list_getResult_reads_only_the_text `{Collaborators}
    (w1 w2 : World ListAssessment.t) :
  Paper.getText (paper w1) = Paper.getText (paper w2) ->
  ListAssessment._config (this w1) = ListAssessment._config (this w2) ->
  fst (ListAssessment.getResult w1) = fst (ListAssessment.getResult w2)
  /\ researcher (snd (ListAssessment.getResult w1)) = researcher w1.
Proof.
  intros Htext Hcfg. split.
  - apply getResult_reads.
    + unfold ListAssessment.found. rewrite Htext. reflexivity.
    + intros p _. rewrite Hcfg. reflexivity.
  - rewrite getResult_world. reflexivity.
Qed.

Lemma list_getResult_reads_only_the_text_witness :
  fst (@ListAssessment.getResult Sample.collaborators
         (Sample.world_of (Sample.paper_of "<ol><li>a</li></ol>" "dogs")
            Sample.researcher_empty
            (@ListAssessment.constructor Sample.collaborators None)))
  = fst (@ListAssessment.getResult Sample.collaborators
           (Sample.world_of (Sample.paper_of "<ol><li>a</li></ol>" "cats")
              (fun p => Sample.researcher_counting p 5)
              (@ListAssessment.constructor Sample.collaborators None))).
Proof.
  apply (@list_getResult_reads_only_the_text Sample.collaborators); reflexivity.
Defined.

(** ** TextCompetingLinksAssessment: what a call does *)

(** X9. When the researcher's lookup fails, [getResult] fails with the same
    error; when the lookup returns [undefined] or [null], [getResult]
    throws a TypeError.  In both cases the fields of the instance are left
    as they were. *)
Theorem competing_getResult_passes_lookup_failure `{Collaborators}
    (w : World TextCompetingLinksAssessment.t) :
  (forall e,
     fst (Researcher.getResearch "getAnchorsWithKeyphrase" (researcher w)) = Throw e ->
     fst (TextCompetingLinksAssessment.getResult w) = Throw e
     /\ this (snd (TextCompetingLinksAssessment.getResult w)) = this w)
  /\ (forall research,
        fst (Researcher.getResearch "getAnchorsWithKeyphrase" (researcher w))
          = Ret research ->
        nullish research = true ->
        fst (TextCompetingLinksAssessment.getResult w) = Throw TypeError
        /\ this (snd (TextCompetingLinksAssessment.getResult w)) = this w).
Proof.
  split.
  - intros e. apply competing_getResult_lookup_fails.
  - intros research. apply competing_getResult_nullish_research.
Qed.

Lemma competing_getResult_passes_lookup_failure_witness :
  fst (@TextCompetingLinksAssessment.getResult Sample.collaborators
         (Sample.world_of Sample.list_paper Sample.researcher_failing
            (@TextCompetingLinksAssessment.constructor Sample.collaborators None)))
  = Throw (CheckExecutionError "no anchors")
  /\ fst (@TextCompetingLinksAssessment.getResult Sample.collaborators
            (Sample.world_of Sample.list_paper (Sample.researcher_returning VNull)
               (@TextCompetingLinksAssessment.constructor Sample.collaborators None)))
     = Throw TypeError.
Proof.
  split.
  - apply (proj1 (@competing_getResult_passes_lookup_failure Sample.collaborators
                    (Sample.world_of Sample.list_paper Sample.researcher_failing
                       (@TextCompetingLinksAssessment.constructor
                          Sample.collaborators None)))).
    reflexivity.
  - apply (proj2 (@competing_getResult_passes_lookup_failure Sample.collaborators
                    (Sample.world_of Sample.list_paper
                       (Sample.researcher_returning VNull)
                       (@TextCompetingLinksAssessment.constructor
                          Sample.collaborators None))) VNull);
      reflexivity.
Defined.

(** X10. Once the lookup has returned a research whose
    [anchorsWithKeyphraseCount] can be read, [getResult] stores that count
    in [totalAnchorsWithKeyphrase], whether or not the rest of the call
    throws; [_config], [identifier] and the paper are left as they were,
    and the researcher is the one the lookup left. *)
Theorem competing_getResult_records_count `{Collaborators}
    (w : World TextCompetingLinksAssessment.t) (research count : value) :
  fst (Researcher.getResearch "getAnchorsWithKeyphrase" (researcher w)) = Ret research ->
  get_prop research "anchorsWithKeyphraseCount" = Ret count ->
  snd (TextCompetingLinksAssessment.getResult w)
  = Build_World (paper w)
      (snd (Researcher.getResearch "getAnchorsWithKeyphrase" (researcher w)))
      {| TextCompetingLinksAssessment._config :=
           TextCompetingLinksAssessment._config (this w);
         TextCompetingLinksAssessment.identifier :=
           TextCompetingLinksAssessment.identifier (this w);
         TextCompetingLinksAssessment.totalAnchorsWithKeyphrase := count |}.
Proof.
  intros Hres Hcount.
  destruct (competing_getResult_world w) as (Hp & Hr & _).
  pose proof (competing_getResult_stores_count w research count Hres Hcount) as Ht.
  destruct (snd (TextCompetingLinksAssessment.getResult w)) as [p r i].
  cbn in *. subst. reflexivity.
Qed.

Lemma competing_getResult_records_count_witness :
  TextCompetingLinksAssessment.totalAnchorsWithKeyphrase
    (this (snd (@TextCompetingLinksAssessment.getResult Sample.collaborators
                  (Sample.world_of Sample.list_paper
                     (fun p => Sample.researcher_counting p 4)
                     (@TextCompetingLinksAssessment.constructor
                        Sample.collaborators (Some Sample.null_scores_config))))))
  = VNum 4.
Proof.
  rewrite (@competing_getResult_records_count Sample.collaborators
             (Sample.world_of Sample.list_paper
                (fun p => Sample.researcher_counting p 4)
                (@TextCompetingLinksAssessment.constructor
                   Sample.collaborators (Some Sample.null_scores_config)))
             (VObj {[ "anchorsWithKeyphraseCount" := VNum 4 ]}) (VNum 4));
    reflexivity.
Defined.

(** X11. When the research has no [anchorsWithKeyphraseCount] to read (the
    property is [undefined], as for a research object without that key),
    [getResult] returns the new result untouched, without a score,
    whatever the recommended maximum is, as long as the [parameters] group
    of [_config] is not [null]. *)
Theorem competing_getResult_without_count `{Collaborators}
    (w : World TextCompetingLinksAssessment.t) (research : value) :
  fst (Researcher.getResearch "getAnchorsWithKeyphrase" (researcher w)) = Ret research ->
  get_prop research "anchorsWithKeyphraseCount" = Ret VUndef ->
  nullish (own (TextCompetingLinksAssessment._config (this w)) "parameters") = false ->
  fst (TextCompetingLinksAssessment.getResult w) = Ret AssessmentResult.new.
Proof.
  intros Hres Hcount Hparams.
  destruct (get_prop_returns _ "recommendedMaximum" Hparams) as [rm Hmax].
  apply (competing_getResult_within w research VUndef rm); try assumption.
  - rewrite read_path_two. exact Hmax.
  - apply js_gt_undefined.
Qed.

Lemma competing_getResult_without_count_witness :
  fst (@TextCompetingLinksAssessment.getResult Sample.collaborators
         (Sample.world_of Sample.list_paper (Sample.researcher_returning (VBool false))
            (@TextCompetingLinksAssessment.constructor Sample.collaborators
               (Some Sample.custom_config))))
  = Ret AssessmentResult.new.
Proof.
  apply (@competing_getResult_without_count Sample.collaborators _ (VBool false));
    reflexivity.
Defined.

(** X12. When the record passed to the constructor gives numbers for
    [parameters.recommendedMaximum] and [scores.bad], a count of anchors
    above the given maximum gets the given bad score and a count up to the
    maximum gets no score; [hasMarks] is false either way. *)
Theorem competing_configured_maximum_is_the_threshold `{Collaborators}
    (cfg : obj) (maximum bad n : Z)
    (w : World TextCompetingLinksAssessment.t) (research : value) :
  TextCompetingLinksAssessment._config (this w)
    = TextCompetingLinksAssessment._config
        (TextCompetingLinksAssessment.constructor (Some cfg)) ->
  option_at ["parameters"; "recommendedMaximum"] cfg = Some (VNum maximum) ->
  option_at ["scores"; "bad"] cfg = Some (VNum bad) ->
  fst (Researcher.getResearch "getAnchorsWithKeyphrase" (researcher w)) = Ret research ->
  get_prop research "anchorsWithKeyphraseCount" = Ret (VNum n) ->
  exists res,
    fst (TextCompetingLinksAssessment.getResult w) = Ret res
    /\ AssessmentResult.score res = (if (maximum <? n)%Z then Some bad else None)
    /\ AssessmentResult.hasMarks res = false.
Proof.
  intros Hcfg Hmax Hbad Hres Hcount.
  destruct (constructor_keeps_given_options cfg _ _ Hmax eq_refl) as [_ Hm].
  destruct (constructor_keeps_given_options cfg _ _ Hbad eq_refl) as [_ Hb].
  apply read_path_of_option_at in Hm, Hb. rewrite <- Hcfg in Hm, Hb.
  destruct (maximum <? n)%Z eqn:Hlt.
  - destruct (competing_getResult_exceeds w research (VNum n) (VNum maximum) (VNum bad))
      as (res & Hret & Hscore & Hmarks); try assumption.
    exists res. auto.
  - exists AssessmentResult.new. split; [|split; reflexivity].
    apply (competing_getResult_within w research (VNum n) (VNum maximum));
      assumption.
Qed.

Lemma competing_configured_maximum_is_the_threshold_witness :
  (exists res,
     fst (@TextCompetingLinksAssessment.getResult Sample.collaborators
            (Sample.world_of Sample.list_paper
               (fun p => Sample.researcher_counting p 2)
               (@TextCompetingLinksAssessment.constructor Sample.collaborators
                  (Some Sample.custom_config)))) = Ret res
     /\ AssessmentResult.score res = None
     /\ AssessmentResult.hasMarks res = false)
  /\ (exists res,
        fst (@TextCompetingLinksAssessment.getResult Sample.collaborators
               (Sample.world_of Sample.list_paper
                  (fun p => Sample.researcher_counting p 3)
                  (@TextCompetingLinksAssessment.constructor Sample.collaborators
                     (Some Sample.custom_config)))) = Ret res
        /\ AssessmentResult.score res = Some 1%Z
        /\ AssessmentResult.hasMarks res = false).
Proof.
  split.
  - apply (@competing_configured_maximum_is_the_threshold Sample.collaborators
             Sample.custom_config 2 1 2 _
             (VObj {[ "anchorsWithKeyphraseCount" := VNum 2 ]}));
      reflexivity.
  - apply (@competing_configured_maximum_is_the_threshold Sample.collaborators
             Sample.custom_config 2 1 3 _
             (VObj {[ "anchorsWithKeyphraseCount" := VNum 3 ]}));
      reflexivity.
Defined.

(** X13. The [scores] group is read only when the count exceeds the
    maximum: for an instance built from a record that sets [scores] to
    [null], a count up to the maximum still gets the new result without a
    score, and a count above it makes [getResult] throw a TypeError. *)
Theorem competing_null_scores_only_matter_above_maximum `{Collaborators}
    (cfg : obj) (maximum n : Z)
    (w : World TextCompetingLinksAssessment.t) (research : value) :
  TextCompetingLinksAssessment._config (this w)
    = TextCompetingLinksAssessment._config
        (TextCompetingLinksAssessment.constructor (Some cfg)) ->
  cfg !! "scores" = Some VNull ->
  read_path ["parameters"; "recommendedMaximum"]
    (VObj (TextCompetingLinksAssessment._config (this w))) = Ret (VNum maximum) ->
  fst (Researcher.getResearch "getAnchorsWithKeyphrase" (researcher w)) = Ret research ->
  get_prop research "anchorsWithKeyphraseCount" = Ret (VNum n) ->
  ((n <= maximum)%Z ->
     fst (TextCompetingLinksAssessment.getResult w) = Ret AssessmentResult.new)
  /\ ((maximum < n)%Z ->
        fst (TextCompetingLinksAssessment.getResult w) = Throw TypeError).
Proof.
  intros Hcfg Hnull Hmax Hres Hcount. split.
  - intros Hle.
    apply (competing_getResult_within w research (VNum n) (VNum maximum));
      try assumption.
    unfold js_gt. cbn. apply Z.ltb_ge. exact Hle.
  - intros Hlt.
    apply (competing_getResult_exceeds_throws w research (VNum n) (VNum maximum));
      try assumption.
    + unfold js_gt. cbn. apply Z.ltb_lt. exact Hlt.
    + rewrite read_path_two. apply get_prop_throws.
      rewrite Hcfg.
      cbn [TextCompetingLinksAssessment.constructor
             TextCompetingLinksAssessment._config].
      change (default ∅ (Some cfg)) with cfg.
      eapply own_merge_scores; [reflexivity|exact Hnull].
Qed.

Lemma competing_null_scores_only_matter_above_maximum_witness :
  fst (@TextCompetingLinksAssessment.getResult Sample.collaborators
         (Sample.world_of Sample.list_paper
            (fun p => Sample.researcher_counting p 0)
            (@TextCompetingLinksAssessment.constructor Sample.collaborators
               (Some Sample.null_scores_config)))) = Ret AssessmentResult.new
  /\ fst (@TextCompetingLinksAssessment.getResult Sample.collaborators
            (Sample.world_of Sample.list_paper
               (fun p => Sample.researcher_counting p 1)
               (@TextCompetingLinksAssessment.constructor Sample.collaborators
                  (Some Sample.null_scores_config)))) = Throw TypeError.
Proof.
  split.
  - apply (proj1 (@competing_null_scores_only_matter_above_maximum
                    Sample.collaborators Sample.null_scores_config 0 0
                    (Sample.world_of Sample.list_paper
                       (fun p => Sample.researcher_counting p 0)
                       (@TextCompetingLinksAssessment.constructor Sample.collaborators
                          (Some Sample.null_scores_config)))
                    (VObj {[ "anchorsWithKeyphraseCount" := VNum 0 ]})
                    eq_refl eq_refl eq_refl eq_refl eq_refl)).
    lia.
  - apply (proj2 (@competing_null_scores_only_matter_above_maximum
                    Sample.collaborators Sample.null_scores_config 0 1
                    (Sample.world_of Sample.list_paper
                       (fun p => Sample.researcher_counting p 1)
                       (@TextCompetingLinksAssessment.constructor Sample.collaborators
                          (Some Sample.null_scores_config)))
                    (VObj {[ "anchorsWithKeyphraseCount" := VNum 1 ]})
                    eq_refl eq_refl eq_refl eq_refl eq_refl)).
    lia.
Defined.

(** X14. [getResult] of [TextCompetingLinksAssessment] does not read the
    paper it is given: with the same researcher and the same
    configuration, any two papers get the same result, and the paper is
    left as it was. *)
Theorem competing_getResult_ignores_the_paper `{Collaborators}
    (w1 w2 : World TextCompetingLinksAssessment.t) :
  researcher w1 = researcher w2 ->
  TextCompetingLinksAssessment._config (this w1)
    = TextCompetingLinksAssessment._config (this w2) ->
  fst (TextCompetingLinksAssessment.getResult w1)
    = fst (TextCompetingLinksAssessment.getResult w2)
  /\ paper (snd (TextCompetingLinksAssessment.getResult w1)) = paper w1.
Proof.
  intros Hres Hcfg. split.
  - apply competing_getResult_reads; [exact Hres|].
    intros p _. rewrite Hcfg. reflexivity.
  - apply competing_getResult_world.
Qed.

Lemma competing_getResult_ignores_the_paper_witness :
  fst (@TextCompetingLinksAssessment.getResult Sample.collaborators
         (Build_World Sample.list_paper
            (Sample.researcher_counting Sample.list_paper 3)
            (@TextCompetingLinksAssessment.constructor Sample.collaborators None)))
  = fst (@TextCompetingLinksAssessment.getResult Sample.collaborators
           (Build_World Sample.empty_paper
              (Sample.researcher_counting Sample.list_paper 3)
              (@TextCompetingLinksAssessment.constructor Sample.collaborators None))).
Proof.
  apply (@competing_getResult_ignores_the_paper Sample.collaborators); reflexivity.
Defined.

(** ** The list pattern: what it needs and what it survives *)

Lemma list_shape_needs (s : jsstring) :
  list_shape s ->
  (9 <= List.length s)%nat /\ 60%N ∈ s /\ 47%N ∈ s /\ 62%N ∈ s.
Proof.
  intros (pre & c1 & attrs & body & c2 & post & -> & _).
  repeat split.
  - rewrite !length_app. cbn. lia.
  - apply elem_of_app. right. apply elem_of_app. left. constructor.
  - apply elem_of_app. right. apply elem_of_app. right.
    apply elem_of_app. right. apply elem_of_app. right.
    apply elem_of_app. right. apply elem_of_app. left.
    constructor. constructor.
  - apply elem_of_app. right. apply elem_of_app. right.
    apply elem_of_app. right. apply elem_of_app. left. constructor.
Qed.

(** X15. [findList] returns true only for a text that, after HTML-block
    removal, has at least nine code units and holds a ["<"], a ["/"] and a
    [">"]: shorter texts and texts without markup never count as holding a
    list. *)
Theorem findList_needs_markup `{Collaborators} (w : World ListAssessment.t) :
  fst (ListAssessment.findList w) = Ret true ->
  (9 <= List.length (removeHtmlBlocks (Paper.getText (paper w))))%nat
  /\ 60%N ∈ removeHtmlBlocks (Paper.getText (paper w))
  /\ 47%N ∈ removeHtmlBlocks (Paper.getText (paper w))
  /\ 62%N ∈ removeHtmlBlocks (Paper.getText (paper w)).
Proof.
  rewrite findList_run. cbn [fst]. intros [= Hfound].
  apply list_shape_needs, regex_test_list_shape. exact Hfound.
Qed.

Lemma findList_needs_markup_witness :
  (9 <= List.length (@removeHtmlBlocks Sample.collaborators
                  (Paper.getText (Sample.paper_of "<ul></ul>" "dogs"))))%nat
  /\ 60%N ∈ @removeHtmlBlocks Sample.collaborators
              (Paper.getText (Sample.paper_of "<ul></ul>" "dogs"))
  /\ 47%N ∈ @removeHtmlBlocks Sample.collaborators
              (Paper.getText (Sample.paper_of "<ul></ul>" "dogs"))
  /\ 62%N ∈ @removeHtmlBlocks Sample.collaborators
              (Paper.getText (Sample.paper_of "<ul></ul>" "dogs")).
Proof.
  apply (@findList_needs_markup Sample.collaborators
           (Sample.world_of (Sample.paper_of "<ul></ul>" "dogs")
              Sample.researcher_empty
              (@ListAssessment.constructor Sample.collaborators None))).
  reflexivity.
Defined.

(** X16. A list stays found when text is put around it: if [findList]
    returns true for a paper, it returns true for every paper whose text
    after HTML-block removal is the first one's with something before and
    something after. *)
Theorem findList_survives_surrounding_text `{Collaborators}
    (w w' : World ListAssessment.t) (before after : jsstring) :
  removeHtmlBlocks (Paper.getText (paper w'))
    = before ++ removeHtmlBlocks (Paper.getText (paper w)) ++ after ->
  fst (ListAssessment.findList w) = Ret true ->
  fst (ListAssessment.findList w') = Ret true.
Proof.
  rewrite !findList_run. cbn [fst]. unfold ListAssessment.found.
  intros Htext [= Hfound]. f_equal. rewrite Htext.
  apply regex_test_spec in Hfound as (pre & mid & post & -> & Hm).
  apply regex_test_spec. exists (before ++ pre), mid, (post ++ after).
  split; [|exact Hm]. rewrite <- !app_assoc. reflexivity.
Qed.

Lemma findList_survives_surrounding_text_witness :
  fst (@ListAssessment.findList Sample.collaborators
         (Sample.world_of Sample.list_paper Sample.researcher_empty
            (@ListAssessment.constructor Sample.collaborators None)))
  = Ret true.
Proof.
  apply (@findList_survives_surrounding_text Sample.collaborators
           (Sample.world_of (Sample.paper_of "<ul><li>a</li></ul>" "dogs")
              Sample.researcher_empty
              (@ListAssessment.constructor Sample.collaborators None))
           _ [] (of_string " dogs"));
    reflexivity.
Defined.
